(** * s3tool: a shallow embedding of [main.py]

    The program is a command-line client for an S3 bucket.  This file
    embeds the [Bucket] class and the [__main__] script as Rocq functions
    over an explicit world (process environment, local file system, remote
    service) and proves the properties the specification states about
    them.

    Layout:
    - [PyStr]: the Python string and [os.path] primitives the script calls;
    - [World]: the environment and the monad of effects (state, exceptions,
      [sys.exit], and the trace of external calls);
    - [S3Tool]: the [Bucket] class and the script;
    - the theorems. *)

From Stdlib Require Import String Ascii List Bool Arith Lia.
Import ListNotations.
Local Open Scope list_scope.
Local Open Scope string_scope.

(** ** Python strings and [posixpath] *)

Module PyStr.

(** The path separator of [posixpath]. *)
Definition sep : ascii := "/"%char.

(** [bool(s)] of a [str]: non-empty. *)
Definition truthy (s : string) : bool :=
  match s with
  | EmptyString => false
  | String _ _ => true
  end.

(** [bool(v)] of an [Optional[str]]: [None] and the empty string are falsy. *)
Definition truthy_opt (v : option string) : bool :=
  match v with
  | None => false
  | Some s => truthy s
  end.

(** [v or d] on an [Optional[str]]. *)
Definition or_else (v : option string) (d : string) : string :=
  match v with
  | Some (String c r) => String c r
  | _ => d
  end.

(** [str(v)] as an f-string prints it: [None] is printed as the word None. *)
Definition fmt (v : option string) : string :=
  match v with
  | None => "None"
  | Some s => s
  end.

(** [a == b] on [Optional[str]]. *)
Definition opt_eqb (a b : option string) : bool :=
  match a, b with
  | None, None => true
  | Some x, Some y => String.eqb x y
  | _, _ => false
  end.

(** [c in s]. *)
Fixpoint contains (c : ascii) (s : string) : bool :=
  match s with
  | EmptyString => false
  | String d r => Ascii.eqb d c || contains c r
  end.

(** [s.startswith(pre)]. *)
Fixpoint startswith (s pre : string) {struct pre} : bool :=
  match pre with
  | EmptyString => true
  | String a pre' =>
      match s with
      | EmptyString => false
      | String b s' => Ascii.eqb a b && startswith s' pre'
      end
  end.

(** [s.endswith(suf)]: [suf] is [s] or a suffix of the tail of [s]. *)
Fixpoint endswith (s suf : string) : bool :=
  String.eqb s suf ||
  match s with
  | EmptyString => false
  | String _ r => endswith r suf
  end.

(** [s[n:]] and [s[:n]]. *)
Fixpoint drop (n : nat) (s : string) : string :=
  match n, s with
  | O, _ => s
  | S _, EmptyString => EmptyString
  | S n', String _ r => drop n' r
  end.

Fixpoint take (n : nat) (s : string) : string :=
  match n, s with
  | O, _ => EmptyString
  | S _, EmptyString => EmptyString
  | S n', String c r => String c (take n' r)
  end.

(** [p.rfind('/') + 1]: the index just after the last separator, 0 when
    there is none ([rfind] returns -1). *)
Fixpoint rfind_sep_succ (p : string) : nat :=
  match p with
  | EmptyString => 0
  | String c r =>
      match rfind_sep_succ r with
      | O => if Ascii.eqb c sep then 1 else 0
      | S i => S (S i)
      end
  end.

(** [s.rstrip('/')]. *)
Fixpoint rstrip_sep (s : string) : string :=
  match s with
  | EmptyString => EmptyString
  | String c r =>
      match rstrip_sep r with
      | EmptyString => if Ascii.eqb c sep then EmptyString else String c EmptyString
      | String d r' => String c (String d r')
      end
  end.

(** ['/' * n]. *)
Fixpoint sep_times (n : nat) : string :=
  match n with
  | O => EmptyString
  | S n' => String sep (sep_times n')
  end.

(** [posixpath.basename]:
    [i = p.rfind(sep) + 1; return p[i:]]. *)
Definition basename (p : string) : string :=
  drop (rfind_sep_succ p) p.

(** [posixpath.dirname]:
    [i = p.rfind(sep) + 1; head = p[:i];
     if head and head != sep*len(head): head = head.rstrip(sep);
     return head]. *)
Definition dirname (p : string) : string :=
  let head := take (rfind_sep_succ p) p in
  if truthy head && negb (String.eqb head (sep_times (String.length head)))
  then rstrip_sep head
  else head.

(** [posixpath.join(a, b)] for two arguments:
    [if b.startswith(sep): path = b
     elif not path or path.endswith(sep): path += b
     else: path += sep + b]. *)
Definition join (a b : string) : string :=
  if startswith b "/" then b
  else if negb (truthy a) || endswith a "/" then a ++ b
  else a ++ "/" ++ b.

(** [s.split('/')]. *)
Fixpoint split_sep (s : string) : list string :=
  match s with
  | EmptyString => [EmptyString]
  | String c r =>
      if Ascii.eqb c sep then EmptyString :: split_sep r
      else match split_sep r with
           | h :: t => String c h :: t
           | [] => [String c EmptyString]
           end
  end.

(** [sep.join(l)]. *)
Fixpoint str_join (s : string) (l : list string) : string :=
  match l with
  | [] => EmptyString
  | [x] => x
  | x :: rest => x ++ s ++ str_join s rest
  end.

(** The components of a path: the pieces between separators, the empty
    ones (doubled or trailing separators) and the [.] ones left out, as the
    kernel resolves a path. *)
Definition kept (c : string) : bool := truthy c && negb (String.eqb c ".").

Definition components (p : string) : list string :=
  filter kept (split_sep p).

(** Two path strings that name the same location: both absolute or both
    relative, with the same components. *)
Definition same_location (p q : string) : Prop :=
  startswith p "/" = startswith q "/" /\ components p = components q.

(** The decimal digit of [n mod 10]. *)
Definition digit (n : nat) : ascii := ascii_of_nat (48 + n mod 10).

(** [%02d] and [%04d]. *)
Definition pad2 (n : nat) : string :=
  String (digit (n / 10)) (String (digit n) EmptyString).

Definition pad4 (n : nat) : string :=
  String (digit (n / 1000)) (String (digit (n / 100))
    (String (digit (n / 10)) (String (digit n) EmptyString))).

End PyStr.

(** ** The world the program runs in, and its effects *)

Module World.
Import PyStr.

(** The calendar date [datetime.datetime.now()] reads. *)
Record date := mkDate { year : nat; month : nat; day : nat }.

(** [d.strftime('%Y-%m-%d')], for a year of four digits. *)
Definition strftime_Ymd (d : date) : string :=
  pad4 (year d) ++ "-" ++ pad2 (month d) ++ "-" ++ pad2 (day d).

(** A path of the local file system once resolved: its components from the
    root. *)
Definition path := list string.

(** What the program can observe and change.
    - [environ]: the process environment once [load_dotenv()] has run;
    - [hostname], [today], [cwd]: what [socket.gethostname()],
      [datetime.datetime.now()] and [os.getcwd()] answer;
    - [dirs], [files]: the directories and the regular files (with their
      contents) of the local file system, the root left implicit;
    - [resource_failure]: the message of the exception [boto3.resource]
      raises, if it raises;
    - [request_failure]: the message of the exception every request to the
      service raises (unreachable endpoint, refused credentials), if any;
    - [buckets]: the buckets of the service, each with its objects (key and
      body) in listing order;
    - [open_failure]: the message of the [OSError] that [open(name, 'w')]
      raises, if it raises (a directory the process may not write to, a
      dangling link, a full disk);
    - [delete_refused]: the objects (bucket and key) the service refuses to
      delete (a lock, a policy on the key): [delete_objects] reports such a
      refusal in the [Errors] of its answer and raises nothing. *)
Record world := mkWorld {
  environ : list (string * string);
  hostname : string;
  today : date;
  cwd : string;
  dirs : list path;
  files : list (path * string);
  resource_failure : option string;
  request_failure : option string;
  buckets : list (string * list (string * string));
  open_failure : option string;
  delete_refused : list (string * string)
}.

Definition set_dirs (w : world) (d : list path) : world :=
  mkWorld (environ w) (hostname w) (today w) (cwd w) d (files w)
          (resource_failure w) (request_failure w) (buckets w)
          (open_failure w) (delete_refused w).

Definition set_files (w : world) (f : list (path * string)) : world :=
  mkWorld (environ w) (hostname w) (today w) (cwd w) (dirs w) f
          (resource_failure w) (request_failure w) (buckets w)
          (open_failure w) (delete_refused w).

Definition set_buckets (w : world) (b : list (string * list (string * string))) : world :=
  mkWorld (environ w) (hostname w) (today w) (cwd w) (dirs w) (files w)
          (resource_failure w) (request_failure w) b
          (open_failure w) (delete_refused w).

(** The calls the program makes to the outside, in the order it makes
    them; a call is recorded whether it succeeds or raises. *)
Inductive event :=
| Print (line : string)
| FileWrite (name content : string)
| Resource (url access_key secret_key : string)
| CreationDate (bucket : string)
| Makedirs (name : string)
| ListObjects (bucket : string) (prefix : option string)
| UploadFile (bucket file_path key : string)
| DownloadFile (bucket key dest : string)
| DeleteObjects (bucket key : string).

(** How a computation ends: with a value, with an exception (its message,
    what [str(e)] gives), or with [sys.exit(code)].  [SystemExit] is not an
    [Exception]: [except Exception] lets it through. *)
Inductive result (A : Type) :=
| Ok (a : A)
| Raise (e : string)
| Exit (code : nat).
Arguments Ok {A} a.
Arguments Raise {A} e.
Arguments Exit {A} code.

Record outcome (A : Type) := mkOutcome {
  res : result A;
  final : world;
  trace : list event
}.
Arguments mkOutcome {A} res final trace.
Arguments res {A} o.
Arguments final {A} o.
Arguments trace {A} o.

(** A computation: from the world it starts in to how it ends, the world
    it leaves (effects made before an exception stay) and the calls it
    made. *)
Definition M (A : Type) : Type := world -> outcome A.

Definition ret {A} (a : A) : M A := fun w => mkOutcome (Ok a) w [].

(** An outcome reached after the calls [t]. *)
Definition after {A} (t : list event) (o : outcome A) : outcome A :=
  match o with
  | mkOutcome r w t' => mkOutcome r w (t ++ t')%list
  end.

Definition bind {A B} (m : M A) (f : A -> M B) : M B := fun w =>
  match m w with
  | mkOutcome (Ok a) w' t => after t (f a w')
  | mkOutcome (Raise e) w' t => mkOutcome (Raise e) w' t
  | mkOutcome (Exit c) w' t => mkOutcome (Exit c) w' t
  end.

Definition raise {A} (e : string) : M A := fun w => mkOutcome (Raise e) w [].

Definition sys_exit {A} (code : nat) : M A := fun w => mkOutcome (Exit code) w [].

(** [try: body except Exception as e: handler(e)]. *)
Definition try_except {A} (body : M A) (handler : string -> M A) : M A := fun w =>
  match body w with
  | mkOutcome (Raise e) w' t => after t (handler e w')
  | mkOutcome (Ok a) w' t => mkOutcome (Ok a) w' t
  | mkOutcome (Exit c) w' t => mkOutcome (Exit c) w' t
  end.

(** The exit status of the process: 0 when the script runs to its end, the
    argument of [sys.exit], 1 for an exception nobody caught. *)
Definition exit_code {A} (r : result A) : nat :=
  match r with
  | Ok _ => 0
  | Raise _ => 1
  | Exit c => c
  end.

Module Notations.
  Notation "x <- m ;; k" := (bind m (fun x => k))
    (at level 61, m at next level, right associativity).
  Notation "m ;;; k" := (bind m (fun _ => k))
    (at level 61, right associativity).
End Notations.
Import Notations.

Definition print (line : string) : M unit := fun w =>
  mkOutcome (Ok tt) w [Print line].

(** *** Association lists keyed by strings *)

Fixpoint lookup {V} (k : string) (l : list (string * V)) : option V :=
  match l with
  | [] => None
  | (k', v) :: r => if String.eqb k' k then Some v else lookup k r
  end.

Fixpoint remove_key {V} (k : string) (l : list (string * V)) : list (string * V) :=
  match l with
  | [] => []
  | (k', v) :: r => if String.eqb k' k then remove_key k r else (k', v) :: remove_key k r
  end.

(** Replace the value in place, or add the key at the end. *)
Fixpoint upsert {V} (k : string) (v : V) (l : list (string * V)) : list (string * V) :=
  match l with
  | [] => [(k, v)]
  | (k', v') :: r => if String.eqb k' k then (k, v) :: r else (k', v') :: upsert k v r
  end.

(** *** The process *)

(** [os.getenv(k)]. *)
Definition getenv (k : string) : M (option string) := fun w =>
  mkOutcome (Ok (lookup k (environ w))) w [].

Definition gethostname : M string := fun w => mkOutcome (Ok (hostname w)) w [].

(** [datetime.datetime.now().strftime('%Y-%m-%d')]. *)
Definition now_strftime_Ymd : M string := fun w =>
  mkOutcome (Ok (strftime_Ymd (today w))) w [].

Definition getcwd : M string := fun w => mkOutcome (Ok (cwd w)) w [].

(** *** The local file system *)

Fixpoint path_eqb (p q : path) : bool :=
  match p, q with
  | [], [] => true
  | a :: p', b :: q' => String.eqb a b && path_eqb p' q'
  | _, _ => false
  end.

(** The location a path string names: relative to [cwd] unless absolute
    ([..] and symbolic links are not modelled). *)
Definition resolve (w : world) (name : string) : path :=
  components (if startswith name "/" then name else join (cwd w) name).

Definition is_dir (w : world) (p : path) : bool :=
  match p with
  | [] => true
  | _ => existsb (path_eqb p) (dirs w)
  end.

Definition is_file (w : world) (p : path) : bool :=
  existsb (fun f => path_eqb p (fst f)) (files w).

(** [os.path.isdir(name)]; false on the empty string. *)
Definition isdir (name : string) : M bool := fun w =>
  mkOutcome (Ok (truthy name && is_dir w (resolve w name))) w [].

(** [os.path.exists(name)]. *)
Definition path_exists (name : string) : M bool := fun w =>
  let p := resolve w name in
  mkOutcome (Ok (truthy name && (is_dir w p || is_file w p))) w [].

(** The non-empty prefixes of a path, shortest first: the directories
    [os.makedirs] goes through. *)
Fixpoint inits (p : path) : list path :=
  match p with
  | [] => []
  | c :: r => [c] :: map (cons c) (inits r)
  end.

Definition add_dir (acc : list path) (p : path) : list path :=
  if existsb (path_eqb p) acc then acc else (acc ++ [p])%list.

(** [os.makedirs(name, exist_ok=True)].  On the empty string [mkdir]
    fails with ENOENT and, the name not being a directory, [exist_ok] does
    not silence it; a regular file on the way is an error too. *)
Definition makedirs (name : string) : M unit := fun w =>
  let p := resolve w name in
  if negb (truthy name) then
    mkOutcome (Raise "[Errno 2] No such file or directory: ''") w [Makedirs name]
  else if is_file w p then
    mkOutcome (Raise ("[Errno 17] File exists: '" ++ name ++ "'")) w [Makedirs name]
  else if existsb (is_file w) (inits p) then
    mkOutcome (Raise ("[Errno 20] Not a directory: '" ++ name ++ "'")) w [Makedirs name]
  else
    mkOutcome (Ok tt) (set_dirs w (fold_left add_dir (inits p) (dirs w))) [Makedirs name].

Fixpoint put_file (p : path) (content : string) (l : list (path * string)) : list (path * string) :=
  match l with
  | [] => [(p, content)]
  | (q, c) :: r => if path_eqb q p then (p, content) :: r else (q, c) :: put_file p content r
  end.

Fixpoint get_file (p : path) (l : list (path * string)) : option string :=
  match l with
  | [] => None
  | (q, c) :: r => if path_eqb q p then Some c else get_file p r
  end.

(** [with open(name, 'w') as f: f.write(content)]: the file is created or
    replaced, unless [open] raises, and then nothing is written.  The call
    is recorded with the content the block is to write. *)
Definition write_file (name content : string) : M unit := fun w =>
  match open_failure w with
  | Some e => mkOutcome (Raise e) w [FileWrite name content]
  | None =>
      mkOutcome (Ok tt) (set_files w (put_file (resolve w name) content (files w)))
                [FileWrite name content]
  end.

(** *** The storage service, through boto3 *)

(** [boto3.resource('s3', endpoint_url=..., aws_access_key_id=...,
    aws_secret_access_key=...)]. *)
Definition boto3_resource (url access_key secret_key : string) : M unit := fun w =>
  mkOutcome (match resource_failure w with
             | Some e => Raise e
             | None => Ok tt
             end) w [Resource url access_key secret_key].

(** [bool(s3.Bucket(name).creation_date)]: the attribute is loaded from
    the list of the buckets and is [None] for a bucket that is not there. *)
Definition creation_date (name : string) : M bool := fun w =>
  mkOutcome (match request_failure w with
             | Some e => Raise e
             | None => Ok (match lookup name (buckets w) with
                           | Some _ => true
                           | None => false
                           end)
             end) w [CreationDate name].

Definition no_such_bucket : string :=
  "An error occurred (NoSuchBucket) when calling the operation: The specified bucket does not exist".

(** [[obj.key for obj in bucket.objects.filter(Prefix=prefix)]], and
    [bucket.objects.all()] when [prefix] is [None]. *)
Definition object_keys (name : string) (prefix : option string) : M (list string) := fun w =>
  mkOutcome (match request_failure w with
             | Some e => Raise e
             | None =>
                 match lookup name (buckets w) with
                 | None => Raise no_such_bucket
                 | Some objs =>
                     Ok (match prefix with
                         | Some p => filter (fun k => startswith k p) (map fst objs)
                         | None => map fst objs
                         end)
                 end
             end) w [ListObjects name prefix].

(** [bucket.upload_file(file_path, key)]. *)
Definition s3_upload_file (name file_path key : string) : M unit := fun w =>
  match get_file (resolve w file_path) (files w) with
  | None =>
      mkOutcome (Raise ("[Errno 2] No such file or directory: '" ++ file_path ++ "'"))
                w [UploadFile name file_path key]
  | Some body =>
      match request_failure w with
      | Some e => mkOutcome (Raise e) w [UploadFile name file_path key]
      | None =>
          match lookup name (buckets w) with
          | None => mkOutcome (Raise no_such_bucket) w [UploadFile name file_path key]
          | Some objs =>
              mkOutcome (Ok tt)
                        (set_buckets w (upsert name (upsert key body objs) (buckets w)))
                        [UploadFile name file_path key]
          end
      end
  end.

(** [bucket.download_file(key, dest)]: the object is looked up, then
    written to [dest], whose directory must exist and which must not be a
    directory itself. *)
Definition s3_download_file (name key dest : string) : M unit := fun w =>
  let ev := [DownloadFile name key dest] in
  match request_failure w with
  | Some e => mkOutcome (Raise e) w ev
  | None =>
      match lookup name (buckets w) with
      | None => mkOutcome (Raise no_such_bucket) w ev
      | Some objs =>
          match lookup key objs with
          | None =>
              mkOutcome (Raise "An error occurred (404) when calling the HeadObject operation: Not Found") w ev
          | Some body =>
              let p := resolve w dest in
              if negb (truthy dest) || negb (is_dir w (removelast p)) then
                mkOutcome (Raise ("[Errno 2] No such file or directory: '" ++ dest ++ "'")) w ev
              else if is_dir w p || endswith dest "/" then
                mkOutcome (Raise ("[Errno 21] Is a directory: '" ++ dest ++ "'")) w ev
              else
                mkOutcome (Ok tt) (set_files w (put_file p body (files w))) ev
          end
      end
  end.

(** The service refuses to delete the object [key] of the bucket [name]. *)
Definition refuses (w : world) (name key : string) : bool :=
  existsb (fun o => String.eqb (fst o) name && String.eqb (snd o) key) (delete_refused w).

(** [bucket.delete_objects(Delete={'Objects': [{'Key': key}]})]: the value
    returned is the list of the keys in the [Errors] of the answer, the keys
    the service did not delete.  A key that is not there is no error. *)
Definition s3_delete_objects (name key : string) : M (list string) := fun w =>
  let ev := [DeleteObjects name key] in
  match request_failure w with
  | Some e => mkOutcome (Raise e) w ev
  | None =>
      match lookup name (buckets w) with
      | None => mkOutcome (Raise no_such_bucket) w ev
      | Some objs =>
          if refuses w name key then mkOutcome (Ok [key]) w ev
          else
            mkOutcome (Ok []) (set_buckets w (upsert name (remove_key key objs) (buckets w))) ev
      end
  end.

End World.

(** ** The program *)

Module S3Tool.
Import PyStr World World.Notations.

(** *** [class Bucket] *)

(** The private attributes [__init__] stores; the handle [self.s3] has no
    state of its own beyond them. *)
Record Bucket := mkBucket {
  self_url : string;
  self_access_key : string;
  self_secret_key : string;
  self_bucket_name : string
}.

(** [Bucket.__connect] (lines 13-22). *)
Definition connect (url access_key secret_key : string) : M unit :=
  try_except
    (boto3_resource url access_key secret_key)
    (fun e => raise ("Error connecting to resource: " ++ e)).

(** [Bucket.__init__] (lines 6-11). *)
Definition init (url access_key secret_key bucket_name : string) : M Bucket :=
  connect url access_key secret_key ;;;
  ret (mkBucket url access_key secret_key bucket_name).

(** [Bucket.get_bucket] (lines 24-32); the bucket reference it returns is
    the bucket's name. *)
Definition get_bucket (self : Bucket) (bucket_name : string) : M string :=
  try_except
    (created <- creation_date bucket_name ;;
     if created then ret bucket_name
     else raise ("Bucket '" ++ bucket_name ++ "' does not exist or is not accessible."))
    (fun e => raise ("Error accessing bucket '" ++ bucket_name ++ "': " ++ e)).

(** [Bucket.build_object_name] (lines 34-41). *)
Definition build_object_name (self : Bucket) (file_path object_name : string) : M string :=
  let object_name :=
    if negb (truthy object_name) then basename file_path else object_name in
  now <- now_strftime_Ymd ;;
  hostname <- gethostname ;;
  ret (now ++ "/" ++ hostname ++ "/" ++ object_name).

(** [Bucket.ls] (lines 43-52). *)
Definition ls (self : Bucket) (directory : string) : M (list string) :=
  try_except
    (bucket <- get_bucket self (self_bucket_name self) ;;
     if truthy directory then
       let prefix :=
         if negb (truthy directory) || endswith directory "/"
         then directory else directory ++ "/" in
       object_keys bucket (Some prefix)
     else
       object_keys bucket None)
    (fun e => raise ("Error listing objects in bucket '" ++ self_bucket_name self ++ "': " ++ e)).

(** [Bucket.upload_file] (lines 54-60). *)
Definition upload_file (self : Bucket) (file_path object_name : string) : M unit :=
  try_except
    (bucket <- get_bucket self (self_bucket_name self) ;;
     final_object_name <- build_object_name self file_path object_name ;;
     s3_upload_file bucket file_path final_object_name)
    (fun e => raise ("Error uploading file '" ++ file_path ++ "' to bucket '"
                       ++ self_bucket_name self ++ "': " ++ e)).

(** The string an [Optional[str]] holds, where it is known not to be
    [None]. *)
Definition the_str (v : option string) : string :=
  match v with
  | Some s => s
  | None => EmptyString
  end.

(** [Bucket.download_file] (lines 62-75); [destination] is [None] when the
    script passes an absent [--local_path]. *)
Definition download_file (self : Bucket) (file_name : string)
    (destination : option string) : M unit :=
  try_except
    (bucket <- get_bucket self (self_bucket_name self) ;;
     destination <-
       (if negb (truthy_opt destination) then
          here <- getcwd ;;
          ret (join here (basename file_name))
        else
          is_directory <- isdir (the_str destination) ;;
          if is_directory then ret (join (the_str destination) (basename file_name))
          else ret (the_str destination)) ;;
     makedirs (dirname destination) ;;;
     s3_download_file bucket file_name destination ;;;
     print ("Downloaded '" ++ file_name ++ "' to '" ++ destination ++ "'"))
    (fun e => raise ("Error downloading file '" ++ file_name ++ "' from bucket '"
                       ++ self_bucket_name self ++ "': " ++ e)).

(** [Bucket.delete_file] (lines 77-83); line 80 does not look at what
    [delete_objects] returns. *)
Definition delete_file (self : Bucket) (file_name : string) : M unit :=
  try_except
    (bucket <- get_bucket self (self_bucket_name self) ;;
     s3_delete_objects bucket file_name ;;;
     print ("Deleted '" ++ file_name ++ "' from bucket '" ++ self_bucket_name self ++ "'"))
    (fun e => raise ("Error deleting file '" ++ file_name ++ "' from bucket '"
                       ++ self_bucket_name self ++ "': " ++ e)).

(** *** The script *)

(** A dict from parameter names to [Optional[str]], in insertion order. *)
Definition dict := list (string * option string).

(** [d.get(k)] and [d[k]] on keys the dict has: [None] stands for itself. *)
Definition dict_get (d : dict) (k : string) : option string :=
  match lookup k d with
  | Some v => v
  | None => None
  end.

(** [load_env_variables] (lines 87-94), [load_dotenv()] having filled
    the environment. *)
Definition load_env_variables : M dict :=
  access_key <- getenv "ACCESS_KEY" ;;
  secret_key <- getenv "SECRET_KEY" ;;
  bucket_name <- getenv "BUCKET_NAME" ;;
  url <- getenv "URL" ;;
  ret [("ACCESS_KEY", access_key); ("SECRET_KEY", secret_key);
       ("BUCKET_NAME", bucket_name); ("URL", url)].

(** The sub-command of a command line, with the options given to it
    ([None]: the option is not on the command line). *)
Inductive command :=
| CmdUpload (file_path : string) (object_name : option string)
| CmdLs (directory : option string)
| CmdDownload (file_name : string) (local_path : option string)
| CmdDelete (file_name : string).

(** A command line the parser accepts: the four global options, each
    given or not, and the sub-command. *)
Record argv := mkArgv {
  opt_bucket_name : option string;
  opt_access_key : option string;
  opt_secret_key : option string;
  opt_url : option string;
  opt_command : command
}.

(** The sub-command once parsed: [--directory] has the default ['']
    (line 118), [--object_name] and [--local_path] the default [None]. *)
Inductive action :=
| Upload (file_path : string) (object_name : option string)
| Ls (directory : string)
| Download (file_name : string) (local_path : option string)
| Delete (file_name : string).

(** [args.action]. *)
Definition action_name (a : action) : string :=
  match a with
  | Upload _ _ => "upload"
  | Ls _ => "ls"
  | Download _ _ => "download"
  | Delete _ => "delete"
  end.

(** The namespace [parser.parse_args()] returns. *)
Record Namespace := mkNamespace {
  bucket_name : option string;
  access_key : option string;
  secret_key : option string;
  url : option string;
  act : action
}.

(** An option of the parser: the value on the command line, or the
    [default] of [add_argument]. *)
Definition with_default (given default : option string) : option string :=
  match given with
  | Some v => Some v
  | None => default
  end.

(** [parser.parse_args()] with the parser of lines 100-127. *)
Definition parse_args (a : argv) (env_params : dict) : Namespace :=
  mkNamespace
    (with_default (opt_bucket_name a) (dict_get env_params "BUCKET_NAME"))
    (with_default (opt_access_key a) (dict_get env_params "ACCESS_KEY"))
    (with_default (opt_secret_key a) (dict_get env_params "SECRET_KEY"))
    (with_default (opt_url a) (dict_get env_params "URL"))
    (match opt_command a with
     | CmdUpload f o => Upload f o
     | CmdLs d => Ls (the_str (with_default d (Some EmptyString)))
     | CmdDownload f l => Download f l
     | CmdDelete f => Delete f
     end).

(** [s3_params] (lines 133-138). *)
Definition s3_params_of (args : Namespace) : dict :=
  [("ACCESS_KEY", access_key args); ("SECRET_KEY", secret_key args);
   ("BUCKET_NAME", bucket_name args); ("URL", url args)].

Definition is_None (v : option string) : bool :=
  match v with
  | None => true
  | Some _ => false
  end.

(** [missing_s3_params] (line 141). *)
Definition missing_s3_params (s3_params : dict) : list string :=
  map fst (filter (fun kv => is_None (snd kv)) s3_params).

(** [any(l)]. *)
Definition any (l : list bool) : bool := existsb (fun b => b) l.

(** [cli_provided_s3_params] (lines 148-153). *)
Definition cli_provided_s3_params (args : Namespace) (env_params : dict) : bool :=
  any [negb (opt_eqb (bucket_name args) (dict_get env_params "BUCKET_NAME"));
       negb (opt_eqb (access_key args) (dict_get env_params "ACCESS_KEY"));
       negb (opt_eqb (secret_key args) (dict_get env_params "SECRET_KEY"));
       negb (opt_eqb (url args) (dict_get env_params "URL"))].

(** The line feed. *)
Definition LF : string := String (ascii_of_nat 10) EmptyString.

(** One [if s3_params[k]: f.write(f"k={s3_params[k]}\n")] of lines
    158-161: what it writes. *)
Definition dotenv_line (s3_params : dict) (k : string) : string :=
  if truthy_opt (dict_get s3_params k)
  then k ++ "=" ++ the_str (dict_get s3_params k) ++ LF
  else EmptyString.

(** What lines 157-161 write to the file. *)
Definition dotenv_content (s3_params : dict) : string :=
  dotenv_line s3_params "ACCESS_KEY" ++ dotenv_line s3_params "SECRET_KEY" ++
  dotenv_line s3_params "BUCKET_NAME" ++ dotenv_line s3_params "URL".

(** The body of the [try] of the script (lines 165-195).  Line 180 nests
    double quotes inside an f-string, which Python reads from 3.12 on. *)
Definition connect_and_run (args : Namespace) (s3_params : dict) : M unit :=
  print ("Connecting to S3 bucket: " ++ fmt (dict_get s3_params "BUCKET_NAME")) ;;;
  s3_instance <- init (the_str (dict_get s3_params "URL"))
                      (the_str (dict_get s3_params "ACCESS_KEY"))
                      (the_str (dict_get s3_params "SECRET_KEY"))
                      (the_str (dict_get s3_params "BUCKET_NAME")) ;;
  match act args with
  | Upload file_path object_name =>
      upload_file s3_instance file_path (or_else object_name EmptyString) ;;;
      final_object_name <-
        build_object_name s3_instance file_path (or_else object_name EmptyString) ;;
      print ("File '" ++ file_path ++ "' uploaded successfully as '" ++ final_object_name
               ++ "' to bucket '" ++ fmt (dict_get s3_params "BUCKET_NAME") ++ "'.")
  | Ls directory =>
      print ("Listing objects in bucket '" ++ fmt (dict_get s3_params "BUCKET_NAME")
               ++ "' (prefix: '" ++ or_else (Some directory) "/" ++ "'):") ;;;
      files <- ls s3_instance directory ;;
      match files with
      | [] => print "No objects found."
      | _ => fold_right (fun f k => print ("- " ++ f) ;;; k) (ret tt) files
      end
  | Download file_name local_path =>
      print ("Attempting to download '" ++ file_name ++ "' from bucket '"
               ++ fmt (dict_get s3_params "BUCKET_NAME") ++ "' to '" ++ fmt local_path ++ "'...") ;;;
      download_file s3_instance file_name local_path
  | Delete file_name =>
      print ("Attempting to delete '" ++ file_name ++ "' from bucket '"
               ++ fmt (dict_get s3_params "BUCKET_NAME") ++ "'...") ;;;
      delete_file s3_instance file_name ;;;
      print ("File '" ++ file_name ++ "' deleted successfully from bucket '"
               ++ fmt (dict_get s3_params "BUCKET_NAME") ++ "'.")
  end.

(** The first part of the script (lines 96-161), from the command line
    the parser accepted: the parameters are resolved and checked, and saved
    when the script decides so. *)
Definition configure (a : argv) : M (Namespace * dict) :=
  env_params <- load_env_variables ;;
  let args := parse_args a env_params in
  let s3_params := s3_params_of args in
  let missing := missing_s3_params s3_params in
  (match missing with
   | [] => ret tt
   | _ =>
       print ("Error: Missing required S3 connection parameters: " ++ str_join ", " missing) ;;;
       print "Please provide them via command line arguments or a .env file." ;;;
       sys_exit 1
   end) ;;;
  dotenv_exists <- path_exists ".env" ;;
  (if negb dotenv_exists && cli_provided_s3_params args env_params then
     print "Saving provided S3 parameters to .env file for future use." ;;;
     write_file ".env" (dotenv_content s3_params)
   else ret tt) ;;;
  ret (args, s3_params).

(** The script (lines 96-199). *)
Definition main (a : argv) : M unit :=
  cfg <- configure a ;;
  try_except
    (connect_and_run (fst cfg) (snd cfg))
    (fun e =>
       print ("Error during action '" ++ action_name (act (fst cfg)) ++ "': " ++ e) ;;;
       sys_exit 1).

(** The exit status of the process and what it printed. *)
Definition status (a : argv) (w : world) : nat := exit_code (res (main a w)).

Definition printed (t : list event) : list string :=
  flat_map (fun e => match e with Print l => [l] | _ => [] end) t.

End S3Tool.

(** ** Vocabulary of the statements, and the worlds of the examples *)

Module Spec.
Import PyStr World World.Notations S3Tool.

(** What [load_env_variables] returns in a world. *)
Definition env_params_of (w : world) : dict :=
  [("ACCESS_KEY", lookup "ACCESS_KEY" (environ w));
   ("SECRET_KEY", lookup "SECRET_KEY" (environ w));
   ("BUCKET_NAME", lookup "BUCKET_NAME" (environ w));
   ("URL", lookup "URL" (environ w))].

(** The namespace and the [s3_params] of the script for a command line
    in a world. *)
Definition args_of (a : argv) (w : world) : Namespace :=
  parse_args a (env_params_of w).

Definition resolved (a : argv) (w : world) : dict :=
  s3_params_of (args_of a w).

(** [os.path.exists('.env')] in a world. *)
Definition dotenv_exists (w : world) : bool :=
  is_dir w (resolve w ".env") || is_file w (resolve w ".env").

(** At least one of the four resolved parameters is not the value loaded
    from the environment. *)
Definition differs (a : argv) (w : world) : Prop :=
  exists k, In k ["BUCKET_NAME"; "ACCESS_KEY"; "SECRET_KEY"; "URL"] /\
            dict_get (resolved a w) k <> dict_get (env_params_of w) k.

(** The line the handler of the script prints for an exception. *)
Definition error_line (a : action) (e : string) : string :=
  "Error during action '" ++ action_name a ++ "': " ++ e.

(** An event that is not a write to a local file by [open]. *)
Definition not_write (e : event) : Prop :=
  match e with
  | FileWrite _ _ => False
  | _ => True
  end.

(** A computation that never calls [sys.exit] and whose calls all
    satisfy [P]. *)
Definition tame {A} (P : event -> Prop) (m : M A) : Prop :=
  forall w, Forall P (trace (m w)) /\ forall c, res (m w) <> Exit c.

(** The lines of a text: [text.split('\n')], the last piece being what
    follows the last line feed. *)
Definition lf : ascii := ascii_of_nat 10.

Fixpoint lines (s : string) : list string :=
  match s with
  | EmptyString => [EmptyString]
  | String c r =>
      if Ascii.eqb c lf then EmptyString :: lines r
      else match lines r with
           | h :: t => String c h :: t
           | [] => [String c EmptyString]
           end
  end.

(** A computation that leaves a part [f] of the world as it found it,
    however it ends. *)
Definition keeps {X A} (f : world -> X) (m : M A) : Prop :=
  forall w, f (final (m w)) = f w.

(** A machine with a home directory holding [r.txt] and a directory
    [out], and a service with one bucket, [bk]. *)
Definition w0 : world :=
  mkWorld [] "host1" (mkDate 2026 11 4) "/home/u"
    [["home"]; ["home"; "u"]; ["home"; "u"; "out"]]
    [(["home"; "u"; "r.txt"], "hello")]
    None None
    [("bk", [("a/b.txt", "B"); ("dir/x", "X"); ("dirx", "Y")])]
    None [].

(** The same machine with a [.env] file that has been loaded. *)
Definition w_env : world :=
  mkWorld [("ACCESS_KEY", "AK"); ("SECRET_KEY", "SK"); ("BUCKET_NAME", "bk"); ("URL", "http://s3")]
    "host1" (mkDate 2026 11 4) "/home/u"
    [["home"]; ["home"; "u"]; ["home"; "u"; "out"]]
    [(["home"; "u"; "r.txt"], "hello"); (["home"; "u"; ".env"], "ACCESS_KEY=AK")]
    None None
    [("bk", [("a/b.txt", "B"); ("dir/x", "X"); ("dirx", "Y")])]
    None [].

(** The same machine with a service that refuses every request. *)
Definition w_down : world :=
  mkWorld [] "host1" (mkDate 2026 11 4) "/home/u"
    [["home"]; ["home"; "u"]; ["home"; "u"; "out"]]
    [(["home"; "u"; "r.txt"], "hello")]
    None (Some "Could not connect to the endpoint URL")
    [("bk", [("a/b.txt", "B")])]
    None [].

(** The same machine when boto3 refuses the endpoint. *)
Definition w_refused : world :=
  mkWorld [] "host1" (mkDate 2026 11 4) "/home/u"
    [["home"]; ["home"; "u"]; ["home"; "u"; "out"]]
    [(["home"; "u"; "r.txt"], "hello")]
    (Some "Invalid endpoint: nowhere") None
    [("bk", [("a/b.txt", "B")])]
    None [].


(** The same machine with a service that refuses to delete [dir/x]. *)
Definition w_locked : world :=
  mkWorld [] "host1" (mkDate 2026 11 4) "/home/u"
    [["home"]; ["home"; "u"]; ["home"; "u"; "out"]]
    [(["home"; "u"; "r.txt"], "hello")]
    None None
    [("bk", [("a/b.txt", "B"); ("dir/x", "X"); ("dirx", "Y")])]
    None [("bk", "dir/x")].

Definition bk : Bucket := mkBucket "http://s3" "AK" "SK" "bk".

(** A command line that gives the four connection parameters. *)
Definition cl (c : command) : argv :=
  mkArgv (Some "bk") (Some "AK") (Some "SK") (Some "http://s3") c.

(** A command line that gives none. *)
Definition bare (c : command) : argv := mkArgv None None None None c.

End Spec.

(** ** Facts on strings and paths *)

Section StringFacts.
Import PyStr.

Lemma rfind_zero_no_sep (p : string) :
  rfind_sep_succ p = 0 -> contains sep p = false.
Proof.
  induction p as [|c r IH]; cbn [rfind_sep_succ contains]; [reflexivity|].
  destruct (rfind_sep_succ r) eqn:E; [|discriminate].
  destruct (Ascii.eqb c sep); [discriminate|].
  intros _. now apply IH.
Qed.

(** The base name of a path holds no separator. *)
Lemma basename_no_sep (p : string) : contains sep (basename p) = false.
Proof.
  unfold basename.
  induction p as [|c r IH]; cbn [rfind_sep_succ]; [reflexivity|].
  destruct (rfind_sep_succ r) eqn:E.
  - pose proof (rfind_zero_no_sep r E) as Hr.
    destruct (Ascii.eqb c sep) eqn:Ec; cbn [drop contains].
    + exact Hr.
    + now rewrite Ec, Hr.
  - exact IH.
Qed.

Lemma no_sep_not_absolute (b : string) :
  contains sep b = false -> startswith b "/" = false.
Proof.
  destruct b as [|c r]; cbn [startswith contains]; [reflexivity|].
  intros H. apply orb_false_iff in H as [H _].
  rewrite (Ascii.eqb_sym "/" c). fold sep. rewrite H. reflexivity.
Qed.

Lemma split_no_sep (a : string) :
  contains sep a = false -> split_sep a = [a].
Proof.
  induction a as [|c r IH]; cbn [split_sep contains]; [reflexivity|].
  intros H. apply orb_false_iff in H as [Hc Hr].
  rewrite Hc, (IH Hr). reflexivity.
Qed.

Lemma split_segment (a b : string) :
  contains sep a = false ->
  split_sep (a ++ "/" ++ b) = a :: split_sep b.
Proof.
  change ("/" ++ b) with (String sep b).
  induction a as [|c r IH]; cbn [append split_sep contains]; [reflexivity|].
  intros H. apply orb_false_iff in H as [Hc Hr].
  rewrite Hc, (IH Hr). reflexivity.
Qed.

Lemma truthy_append_sep (p : string) : truthy (p ++ "/") = true.
Proof. destruct p; reflexivity. Qed.

Lemma endswith_append_sep (p : string) : endswith (p ++ "/") "/" = true.
Proof.
  induction p as [|c r IH]; [reflexivity|].
  change ((String c r) ++ "/") with (String c (r ++ "/")).
  cbn [endswith]. rewrite IH. apply orb_true_r.
Qed.

Lemma digit_not_sep (n : nat) : Ascii.eqb (digit n) sep = false.
Proof.
  unfold digit.
  pose proof (Nat.mod_upper_bound n 10 ltac:(discriminate)) as H.
  destruct (n mod 10) as [|[|[|[|[|[|[|[|[|[|k]]]]]]]]]]; try reflexivity.
  exfalso. lia.
Qed.

(** A formatted date holds no separator and has ten characters. *)
Lemma strftime_no_sep (d : World.date) : contains sep (World.strftime_Ymd d) = false.
Proof.
  unfold World.strftime_Ymd, pad4, pad2.
  cbn [append contains].
  rewrite !digit_not_sep. reflexivity.
Qed.

Lemma strftime_length (d : World.date) : String.length (World.strftime_Ymd d) = 10.
Proof. reflexivity. Qed.

Lemma endswith_cons (c : ascii) (r : string) :
  endswith (String c r) "/" = true ->
  (r = EmptyString /\ c = sep) \/ endswith r "/" = true.
Proof.
  cbn [endswith]. intros H. apply orb_true_iff in H as [H|H]; [|now right].
  apply String.eqb_eq in H. injection H as -> ->. now left.
Qed.

Lemma startswith_append (a x : string) :
  truthy a = true -> startswith (a ++ x) "/" = startswith a "/".
Proof.
  destruct a as [|c r]; [discriminate|]. intros _.
  cbn [append startswith]. reflexivity.
Qed.

(** After a path that ends with a separator, one more separator adds only
    an empty piece. *)
Lemma split_after_sep (a b : string) :
  endswith a "/" = true ->
  exists h t1 t2,
    split_sep (a ++ b) = h :: t1 /\
    split_sep (a ++ String sep b) = h :: t2 /\
    filter kept t1 = filter kept t2.
Proof.
  induction a as [|c r IH]; [discriminate|].
  intros H. apply endswith_cons in H as [[-> ->]|H].
  - exists EmptyString, (split_sep b), (EmptyString :: split_sep b).
    repeat split.
  - destruct (IH H) as (h & t1 & t2 & E1 & E2 & EF).
    cbn [append split_sep]. rewrite E1, E2.
    destruct (Ascii.eqb c sep).
    + exists EmptyString, (h :: t1), (h :: t2). repeat split.
      cbn [filter]. now rewrite EF.
    + exists (String c h), t1, t2. repeat split. exact EF.
Qed.

(** [os.path.join] of a non-empty path and a base name: the path, a
    separator and the name, literally unless the path already ends with a
    separator, and the same location in every case. *)
Lemma join_literal (a b : string) :
  truthy a = true -> endswith a "/" = false -> contains sep b = false ->
  join a b = a ++ "/" ++ b.
Proof.
  intros Ha He Hb. unfold join.
  now rewrite (no_sep_not_absolute b Hb), Ha, He.
Qed.

Lemma join_same_location (a b : string) :
  truthy a = true -> contains sep b = false ->
  same_location (join a b) (a ++ "/" ++ b).
Proof.
  intros Ha Hb. unfold join. rewrite (no_sep_not_absolute b Hb), Ha.
  cbn [negb orb].
  destruct (endswith a "/") eqn:He; [|split; reflexivity].
  split.
  - now rewrite !startswith_append.
  - unfold components. change ("/" ++ b) with (String sep b).
    destruct (split_after_sep a b He) as (h & t1 & t2 & E1 & E2 & EF).
    rewrite E1, E2. cbn [filter]. now rewrite EF.
Qed.

(** The primitives on the paths the examples use. *)
Example basename_of_path : basename "/tmp/report.txt" = "report.txt".
Proof. reflexivity. Qed.

Example basename_of_directory : basename "dir/" = EmptyString.
Proof. reflexivity. Qed.

Example dirname_of_path : dirname "/tmp/a/report.txt" = "/tmp/a".
Proof. reflexivity. Qed.

Example dirname_of_bare_name : dirname "report.txt" = EmptyString.
Proof. reflexivity. Qed.

Example dirname_at_root : dirname "/report.txt" = "/".
Proof. reflexivity. Qed.

Example join_adds_separator : join "out" "b.txt" = "out/b.txt".
Proof. reflexivity. Qed.

Example join_keeps_separator : join "out/" "b.txt" = "out/b.txt".
Proof. reflexivity. Qed.

Example join_at_root : join "/" "b.txt" = "/b.txt".
Proof. reflexivity. Qed.

Example components_of_path : components "/a/./b//c/" = ["a"; "b"; "c"].
Proof. reflexivity. Qed.

Example strftime_of_date : World.strftime_Ymd (World.mkDate 2026 11 4) = "2026-11-04".
Proof. reflexivity. Qed.

End StringFacts.

(** ** Facts on the monad of effects *)

Section Effects.
Import PyStr World World.Notations S3Tool Spec.

Lemma path_eqb_refl (p : path) : path_eqb p p = true.
Proof.
  induction p as [|c r IH]; [reflexivity|].
  cbn [path_eqb]. now rewrite String.eqb_refl, IH.
Qed.

Lemma get_put_file (p : path) (c : string) (l : list (path * string)) :
  get_file p (put_file p c l) = Some c.
Proof.
  induction l as [|[q d] r IH]; cbn [put_file get_file].
  - now rewrite path_eqb_refl.
  - destruct (path_eqb q p) eqn:E; cbn [get_file].
    + now rewrite path_eqb_refl.
    + now rewrite E.
Qed.

Lemma trace_after {A} (t : list event) (o : outcome A) :
  trace (after t o) = (t ++ trace o)%list.
Proof. now destruct o. Qed.

Lemma tame_ret {A} (P : event -> Prop) (a : A) : tame P (ret a).
Proof. intros w. split; [constructor | discriminate]. Qed.

Lemma tame_raise {A} (P : event -> Prop) (e : string) : tame P (@raise A e).
Proof. intros w. split; [constructor | discriminate]. Qed.

Lemma tame_bind {A B} (P : event -> Prop) (m : M A) (f : A -> M B) :
  tame P m -> (forall a, tame P (f a)) -> tame P (bind m f).
Proof.
  intros Hm Hf w. unfold bind.
  destruct (Hm w) as [Ht Hx].
  destruct (m w) as [[a|e|c] w' t]; cbn [res trace] in *.
  - destruct (Hf a w') as [Ht' Hx'].
    destruct (f a w') as [r2 w2 t2]; cbn [after res trace] in *.
    split; [apply Forall_app; now split | exact Hx'].
  - split; [exact Ht | discriminate].
  - now contradiction (Hx c).
Qed.

Lemma tame_try {A} (P : event -> Prop) (m : M A) (h : string -> M A) :
  tame P m -> (forall e, tame P (h e)) -> tame P (try_except m h).
Proof.
  intros Hm Hh w. unfold try_except.
  destruct (Hm w) as [Ht Hx].
  destruct (m w) as [[a|e|c] w' t]; cbn [res trace] in *.
  - split; [exact Ht | discriminate].
  - destruct (Hh e w') as [Ht' Hx'].
    destruct (h e w') as [r2 w2 t2]; cbn [after res trace] in *.
    split; [apply Forall_app; now split | exact Hx'].
  - now contradiction (Hx c).
Qed.

End Effects.

(** Case analysis on the next test a computation makes, once the monad is
    unfolded. *)
Ltac break_match :=
  match goal with
  | |- context [match ?x with _ => _ end] =>
      lazymatch x with
      | context [match _ with _ => _ end] => fail
      | _ => destruct x eqn:?
      end
  end.

Ltac run := repeat (cbn [World.res World.final World.trace World.after app]; try break_match).

(** ** Object keys *)

Section ObjectKeys.
Import PyStr World World.Notations S3Tool Spec.

Lemma length_append (a b : string) :
  String.length (a ++ b) = String.length a + String.length b.
Proof. induction a as [|c r IH]; cbn [append String.length]; [reflexivity | now rewrite IH]. Qed.

Lemma Ok_inj {A} (a b : A) : Ok a = Ok b -> a = b.
Proof. congruence. Qed.

Lemma build_object_name_run (self : Bucket) (file_path object_name : string) (w : world) :
  build_object_name self file_path object_name w =
  mkOutcome
    (Ok (strftime_Ymd (today w) ++ "/" ++ hostname w ++ "/" ++
         (if negb (truthy object_name) then basename file_path else object_name)))
    w [].
Proof. reflexivity. Qed.

(** C1 (amended): for every file path and every non-empty object name,
    [build_object_name] returns the date, the host name and the object
    name joined by separators: the explicit name stands where the base
    name of the file would, under the same prefix, and the key is never
    the object name alone. *)
Theorem C1_explicit_name_keeps_prefix
    (self : Bucket) (file_path object_name : string) (w : world) :
  truthy object_name = true ->
  build_object_name self file_path object_name w =
    mkOutcome (Ok (strftime_Ymd (today w) ++ "/" ++ hostname w ++ "/" ++ object_name)) w []
  /\ res (build_object_name self file_path object_name w) <> Ok object_name.
Proof.
  intros H. rewrite build_object_name_run, H. cbn [negb].
  split; [reflexivity|].
  cbn [res]. intros E. apply Ok_inj in E.
  apply (f_equal String.length) in E.
  rewrite !length_append, strftime_length in E.
  cbn [String.length] in E. lia.
Qed.

Lemma C1_explicit_name_keeps_prefix_witness :
  build_object_name bk "r.txt" "k" w0 = mkOutcome (Ok "2026-11-04/host1/k") w0 [].
Proof. exact (proj1 (C1_explicit_name_keeps_prefix bk "r.txt" "k" w0 eq_refl)). Defined.

(** C1 as stated fails: with the explicit name [k] the key is not [k]. *)
Lemma C1_verbatim_counterexample :
  truthy "k" = true /\
  res (build_object_name bk "r.txt" "k" w0) = Ok "2026-11-04/host1/k" /\
  res (build_object_name bk "r.txt" "k" w0) <> Ok "k".
Proof. repeat split. discriminate. Qed.

(** C2: with no object name, [build_object_name] returns the formatted
    date, the host name and the base name of the file joined by
    separators; on a host whose name holds no separator the key splits in
    exactly these three segments, and it is the key [upload_file] sends. *)
Theorem C2_default_key (self : Bucket) (file_path : string) (w : world) :
  build_object_name self file_path EmptyString w =
    mkOutcome (Ok (strftime_Ymd (today w) ++ "/" ++ hostname w ++ "/" ++ basename file_path)) w []
  /\ (contains sep (hostname w) = false ->
      split_sep (strftime_Ymd (today w) ++ "/" ++ hostname w ++ "/" ++ basename file_path)
      = [strftime_Ymd (today w); hostname w; basename file_path])
  /\ (forall b f k, In (UploadFile b f k) (trace (upload_file self file_path EmptyString w)) ->
      k = strftime_Ymd (today w) ++ "/" ++ hostname w ++ "/" ++ basename file_path).
Proof.
  split; [reflexivity|]. split.
  - intros Hh.
    rewrite (split_segment _ _ (strftime_no_sep (today w))).
    rewrite (split_segment _ _ Hh).
    now rewrite (split_no_sep _ (basename_no_sep file_path)).
  - intros b f k.
    unfold upload_file, get_bucket, build_object_name, creation_date, s3_upload_file,
      now_strftime_Ymd, gethostname.
    unfold try_except, bind, raise, ret. cbn [truthy negb].
    run; cbn [In]; intros H; decompose [or] H; try discriminate; try contradiction.
    all: match goal with E : UploadFile _ _ _ = UploadFile _ _ _ |- _ => now injection E end.
Qed.

Lemma C2_default_key_witness :
  split_sep "2026-11-04/host1/r.txt" = ["2026-11-04"; "host1"; "r.txt"].
Proof. exact (proj1 (proj2 (C2_default_key bk "/home/u/r.txt" w0)) eq_refl). Defined.

End ObjectKeys.

(** ** Listing *)

Section Listing.
Import PyStr World World.Notations S3Tool Spec.

(** C3 (amended): for every non-empty prefix [p] that does not end with a
    separator, [ls p] does what [ls (p + '/')] does, result, world and
    calls alike; the prefix it sends to the service is [p] followed by
    one separator. *)
Theorem C3_ls_appends_separator (self : Bucket) (p : string) (w : world) :
  truthy p = true ->
  endswith p "/" = false ->
  ls self p w = ls self (p ++ "/") w
  /\ (forall b q, In (ListObjects b q) (trace (ls self p w)) -> q = Some (p ++ "/")).
Proof.
  intros Hp He. split.
  - unfold ls. now rewrite Hp, He, truthy_append_sep, endswith_append_sep.
  - intros b q. unfold ls. rewrite Hp, He. cbn [negb orb].
    unfold get_bucket, creation_date, object_keys.
    unfold try_except, bind, raise, ret.
    run; cbn [In]; intros H; decompose [or] H; try discriminate; try contradiction.
    all: match goal with E : ListObjects _ _ = ListObjects _ _ |- _ => now injection E end.
Qed.

Lemma C3_ls_appends_separator_witness :
  ls bk "dir" w0 = ls bk "dir/" w0.
Proof. exact (proj1 (C3_ls_appends_separator bk "dir" w0 eq_refl eq_refl)). Defined.

(** C3 as stated fails on the empty prefix, which does not end with a
    separator: [ls ''] lists the whole bucket, [ls '/'] the keys that start
    with a separator. *)
Lemma C3_empty_prefix_counterexample :
  endswith EmptyString "/" = false /\
  res (ls bk EmptyString w0) = Ok ["a/b.txt"; "dir/x"; "dirx"] /\
  res (ls bk (EmptyString ++ "/") w0) = Ok [] /\
  ls bk EmptyString w0 <> ls bk (EmptyString ++ "/") w0.
Proof.
  repeat split. intros E. apply (f_equal res) in E. discriminate E.
Qed.

(** A prefix that already ends with a separator is sent as it is. *)
Lemma ls_keeps_trailing_separator :
  trace (ls bk "dir//" w0) = [CreationDate "bk"; ListObjects "bk" (Some "dir//")].
Proof. reflexivity. Qed.

End Listing.

(** ** Connection parameters *)

Section Parameters.
Import PyStr World World.Notations S3Tool Spec.

(** The four ways the first part of the script ends: a parameter is
    missing; nothing is to be saved; the parameters are saved; [open]
    raises, outside any [try]. *)
Lemma configure_run (a : argv) (w : world) :
  configure a w =
  match missing_s3_params (resolved a w) with
  | [] =>
      if negb (dotenv_exists w) && cli_provided_s3_params (args_of a w) (env_params_of w)
      then
        match open_failure w with
        | Some e =>
            mkOutcome (Raise e) w
              [Print "Saving provided S3 parameters to .env file for future use.";
               FileWrite ".env" (dotenv_content (resolved a w))]
        | None =>
            mkOutcome (Ok (args_of a w, resolved a w))
              (set_files w (put_file (resolve w ".env") (dotenv_content (resolved a w)) (files w)))
              [Print "Saving provided S3 parameters to .env file for future use.";
               FileWrite ".env" (dotenv_content (resolved a w))]
        end
      else mkOutcome (Ok (args_of a w, resolved a w)) w []
  | _ :: _ =>
      mkOutcome (Exit 1) w
        [Print ("Error: Missing required S3 connection parameters: "
                  ++ str_join ", " (missing_s3_params (resolved a w)));
         Print "Please provide them via command line arguments or a .env file."]
  end.
Proof.
  unfold configure, load_env_variables.
  unfold bind, getenv, path_exists, print, write_file, sys_exit, ret.
  unfold resolved, args_of, env_params_of, dotenv_exists.
  cbn [after app truthy andb].
  match goal with
  | |- context [match ?x with [] => _ | _ :: _ => _ end] => destruct x
  end; cbn [after app]; [|reflexivity].
  match goal with
  | |- context [if ?x then _ else _] => destruct x
  end; [|reflexivity].
  destruct (open_failure w); reflexivity.
Qed.

(** When a parameter is missing the script stops there. *)
Lemma main_missing_run (a : argv) (w : world) :
  missing_s3_params (resolved a w) <> [] ->
  main a w =
  mkOutcome (Exit 1) w
    [Print ("Error: Missing required S3 connection parameters: "
              ++ str_join ", " (missing_s3_params (resolved a w)));
     Print "Please provide them via command line arguments or a .env file."].
Proof.
  intros H. unfold main, bind. rewrite configure_run.
  destruct (missing_s3_params (resolved a w)); [contradiction|reflexivity].
Qed.

(** The names the check lists are the keys whose value is [None]. *)
Lemma missing_iff (d : dict) (k : string) :
  In k (missing_s3_params d) <-> In (k, None) d.
Proof.
  unfold missing_s3_params. rewrite in_map_iff. split.
  - intros ([k' v] & <- & H). apply filter_In in H as [H Hv].
    cbn [fst snd] in *. destruct v; [discriminate|exact H].
  - intros H. exists (k, None). split; [reflexivity|].
    apply filter_In. split; [exact H|reflexivity].
Qed.

(** C4: whenever at least one of the four connection parameters resolves
    to absent, the script prints the line that lists the absent names (the
    names listed are exactly the keys whose resolved value is [None]) and a
    hint, exits with status 1, and has made no other call: no connection is
    attempted and nothing is written. *)
Theorem C4_missing_parameters_exit_1 (a : argv) (w : world) :
  missing_s3_params (resolved a w) <> [] ->
  main a w =
    mkOutcome (Exit 1) w
      [Print ("Error: Missing required S3 connection parameters: "
                ++ str_join ", " (missing_s3_params (resolved a w)));
       Print "Please provide them via command line arguments or a .env file."]
  /\ status a w = 1
  /\ (forall k, In k (missing_s3_params (resolved a w)) <-> In (k, None) (resolved a w))
  /\ (forall u ak sk, ~ In (Resource u ak sk) (trace (main a w))).
Proof.
  intros H. pose proof (main_missing_run a w H) as E.
  split; [exact E|]. split; [unfold status; now rewrite E|].
  split; [intros k; apply missing_iff|].
  intros u ak sk. rewrite E. cbn [trace In].
  intros [X|[X|[]]]; discriminate.
Qed.

Lemma C4_missing_parameters_exit_1_witness :
  printed (trace (main (mkArgv None (Some "AK") None (Some "http://s3") (CmdLs None)) w0))
  = ["Error: Missing required S3 connection parameters: SECRET_KEY, BUCKET_NAME";
     "Please provide them via command line arguments or a .env file."]
  /\ status (mkArgv None (Some "AK") None (Some "http://s3") (CmdLs None)) w0 = 1.
Proof.
  pose proof (C4_missing_parameters_exit_1
                (mkArgv None (Some "AK") None (Some "http://s3") (CmdLs None)) w0
                ltac:(discriminate)) as (E & S & _).
  split; [rewrite E; reflexivity | exact S].
Defined.

End Parameters.

(** ** Calls and exits of the methods *)

Section Tameness.
Import PyStr World World.Notations S3Tool Spec.

Lemma tame_print (l : string) : tame not_write (print l).
Proof. intros w. split; [repeat constructor | discriminate]. Qed.

Lemma tame_boto3_resource (u k s : string) : tame not_write (boto3_resource u k s).
Proof.
  intros w. unfold boto3_resource. cbn [res trace].
  split; [repeat constructor | destruct (resource_failure w); discriminate].
Qed.

Lemma tame_creation_date (n : string) : tame not_write (creation_date n).
Proof.
  intros w. unfold creation_date. cbn [res trace].
  split; [repeat constructor | destruct (request_failure w); discriminate].
Qed.

Lemma tame_object_keys (n : string) (p : option string) : tame not_write (object_keys n p).
Proof.
  intros w. unfold object_keys. cbn [res trace].
  split; [repeat constructor|].
  destruct (request_failure w); [discriminate|].
  destruct (lookup n (buckets w)); discriminate.
Qed.

Lemma tame_s3_upload_file (n f k : string) : tame not_write (s3_upload_file n f k).
Proof.
  intros w. unfold s3_upload_file.
  run; (split; [repeat constructor | discriminate]).
Qed.

Lemma tame_s3_download_file (n k d : string) : tame not_write (s3_download_file n k d).
Proof.
  intros w. unfold s3_download_file.
  run; (split; [repeat constructor | discriminate]).
Qed.

Lemma tame_s3_delete_objects (n k : string) : tame not_write (s3_delete_objects n k).
Proof.
  intros w. unfold s3_delete_objects.
  run; (split; [repeat constructor | discriminate]).
Qed.

Lemma tame_makedirs (n : string) : tame not_write (makedirs n).
Proof.
  intros w. unfold makedirs.
  run; (split; [repeat constructor | discriminate]).
Qed.

Lemma tame_isdir (n : string) : tame not_write (isdir n).
Proof. intros w. split; [constructor | discriminate]. Qed.

Lemma tame_getcwd : tame not_write getcwd.
Proof. intros w. split; [constructor | discriminate]. Qed.

Lemma tame_build_object_name (self : Bucket) (f o : string) :
  tame not_write (build_object_name self f o).
Proof. intros w. split; [constructor | discriminate]. Qed.

End Tameness.

Create HintDb tame.
#[local] Hint Resolve tame_print tame_boto3_resource tame_creation_date tame_object_keys
  tame_s3_upload_file tame_s3_download_file tame_s3_delete_objects tame_makedirs
  tame_isdir tame_getcwd tame_build_object_name : tame.

(** One step through a computation built with [bind] and [try_except]. *)
Ltac tame_step :=
  lazymatch goal with
  | |- Spec.tame _ (World.bind _ _) => apply tame_bind; [|intro]
  | |- Spec.tame _ (World.try_except _ _) => apply tame_try; [|intro]
  | |- Spec.tame _ (World.ret _) => apply tame_ret
  | |- Spec.tame _ (World.raise _) => apply tame_raise
  | |- Spec.tame _ (match ?x with _ => _ end) => destruct x
  | |- Spec.tame _ _ => solve [auto with tame]
  end.

Section Script.
Import PyStr World World.Notations S3Tool Spec.

Lemma tame_get_bucket (self : Bucket) (n : string) : tame not_write (get_bucket self n).
Proof. unfold get_bucket. repeat tame_step. Qed.

Lemma tame_ls (self : Bucket) (d : string) : tame not_write (ls self d).
Proof. pose proof tame_get_bucket. unfold ls. repeat tame_step. Qed.

Lemma tame_upload_file (self : Bucket) (f o : string) : tame not_write (upload_file self f o).
Proof. pose proof tame_get_bucket. unfold upload_file. repeat tame_step. Qed.

Lemma tame_download_file (self : Bucket) (f : string) (d : option string) :
  tame not_write (download_file self f d).
Proof. pose proof tame_get_bucket. unfold download_file. repeat tame_step. Qed.

Lemma tame_delete_file (self : Bucket) (f : string) : tame not_write (delete_file self f).
Proof. pose proof tame_get_bucket. unfold delete_file. repeat tame_step. Qed.

Lemma tame_init (u k s n : string) : tame not_write (init u k s n).
Proof. unfold init, connect. repeat tame_step. Qed.

Lemma tame_print_all (l : list string) :
  tame not_write (fold_right (fun f k => print ("- " ++ f) ;;; k) (ret tt) l).
Proof.
  induction l as [|x r IH]; cbn [fold_right]; [apply tame_ret|].
  apply tame_bind; [apply tame_print | intros _; exact IH].
Qed.

(** The body of the [try] writes no local file with [open] and never calls
    [sys.exit]. *)
Lemma tame_connect_and_run (args : Namespace) (s3_params : dict) :
  tame not_write (connect_and_run args s3_params).
Proof.
  pose proof tame_init. pose proof tame_ls. pose proof tame_upload_file.
  pose proof tame_download_file. pose proof tame_delete_file. pose proof tame_print_all.
  unfold connect_and_run. repeat tame_step.
Qed.

End Script.

(** ** The top level of the script *)

Section TopLevel.
Import PyStr World World.Notations S3Tool Spec.

(** The script once its first part has returned: the body of the [try]
    runs, and an exception it raises is printed and turned into exit
    status 1. *)
Lemma main_after_configure (a : argv) (w w1 : world) (args : Namespace) (s3 : dict)
    (t : list event) :
  configure a w = mkOutcome (Ok (args, s3)) w1 t ->
  main a w =
  match res (connect_and_run args s3 w1) with
  | Raise e =>
      mkOutcome (Exit 1) (final (connect_and_run args s3 w1))
        (t ++ trace (connect_and_run args s3 w1) ++ [Print (error_line (act args) e)])%list
  | r =>
      mkOutcome r (final (connect_and_run args s3 w1))
        (t ++ trace (connect_and_run args s3 w1))%list
  end.
Proof.
  intros H. unfold main. unfold bind at 1. rewrite H.
  cbn [fst snd]. unfold try_except.
  destruct (connect_and_run args s3 w1) as [[u|e|c] w2 t2];
    cbn [after res final trace]; [reflexivity| |reflexivity].
  unfold bind, print, sys_exit. cbn [after app]. reflexivity.
Qed.

(** An exception of the first part is outside the [try]: it ends the
    script. *)
Lemma main_configure_raises (a : argv) (w w1 : world) (e : string) (t : list event) :
  configure a w = mkOutcome (Raise e) w1 t ->
  main a w = mkOutcome (Raise e) w1 t.
Proof. intros H. unfold main, bind. now rewrite H. Qed.

(** C7: for every action, once the parameters are resolved, an exception
    raised while connecting or running the action is caught by the script,
    which prints it after the name of the action and exits with status 1;
    when the action completes the script ends with status 0; and the action
    itself never exits the process, so these are the only two cases. *)
Theorem C7_exceptions_caught_at_top_level
    (a : argv) (w w1 : world) (args : Namespace) (s3 : dict) (t : list event) :
  configure a w = mkOutcome (Ok (args, s3)) w1 t ->
  (forall e, res (connect_and_run args s3 w1) = Raise e ->
     res (main a w) = Exit 1 /\ status a w = 1 /\
     trace (main a w) =
       (t ++ trace (connect_and_run args s3 w1)
          ++ [Print ("Error during action '" ++ action_name (act args) ++ "': " ++ e)])%list)
  /\ (forall u, res (connect_and_run args s3 w1) = Ok u ->
     res (main a w) = Ok u /\ status a w = 0 /\
     trace (main a w) = (t ++ trace (connect_and_run args s3 w1))%list)
  /\ (forall c, res (connect_and_run args s3 w1) <> Exit c)
  /\ In (action_name (act args)) ["upload"; "ls"; "download"; "delete"].
Proof.
  intros H. pose proof (main_after_configure a w w1 args s3 t H) as E.
  unfold status. repeat split.
  - rewrite E, H0. reflexivity.
  - rewrite E, H0. reflexivity.
  - rewrite E, H0. reflexivity.
  - rewrite E, H0. reflexivity.
  - rewrite E, H0. reflexivity.
  - rewrite E, H0. reflexivity.
  - apply (tame_connect_and_run args s3 w1).
  - destruct (act args); cbn [action_name In]; tauto.
Qed.

Lemma C7_exceptions_caught_at_top_level_witness :
  status (cl (CmdDelete "a/b.txt")) w_down = 1
  /\ printed (trace (main (cl (CmdDelete "a/b.txt")) w_down)) =
     ["Saving provided S3 parameters to .env file for future use.";
      "Connecting to S3 bucket: bk";
      "Attempting to delete 'a/b.txt' from bucket 'bk'...";
      "Error during action 'delete': Error deleting file 'a/b.txt' from bucket 'bk': Error accessing bucket 'bk': Could not connect to the endpoint URL"]
  /\ status (cl (CmdDelete "a/b.txt")) w0 = 0.
Proof.
  pose proof (C7_exceptions_caught_at_top_level (cl (CmdDelete "a/b.txt")) w_down _ _ _ _
                eq_refl) as (HR & _).
  pose proof (C7_exceptions_caught_at_top_level (cl (CmdDelete "a/b.txt")) w0 _ _ _ _
                eq_refl) as (_ & HO & _).
  destruct (HR _ eq_refl) as (_ & S1 & T1).
  destruct (HO tt eq_refl) as (_ & S0 & _).
  split; [exact S1|]. split; [rewrite T1; reflexivity | exact S0].
Defined.

End TopLevel.

(** ** Saving the parameters *)

Section Persistence.
Import PyStr World World.Notations S3Tool Spec.

Lemma opt_eqb_spec (x y : option string) : opt_eqb x y = true <-> x = y.
Proof.
  destruct x as [x|], y as [y|]; cbn [opt_eqb]; try (split; congruence).
  rewrite String.eqb_eq. split; congruence.
Qed.

Lemma negb_opt_eqb (x y : option string) : negb (opt_eqb x y) = true <-> x <> y.
Proof.
  rewrite negb_true_iff, <- not_true_iff_false. now rewrite opt_eqb_spec.
Qed.

(** [cli_provided_s3_params] says that a resolved parameter differs from
    the loaded one. *)
Lemma cli_provided_iff (a : argv) (w : world) :
  cli_provided_s3_params (args_of a w) (env_params_of w) = true <-> differs a w.
Proof.
  unfold cli_provided_s3_params, any, differs. cbn [existsb].
  rewrite !orb_true_iff, !negb_opt_eqb. split.
  - intros [H|[H|[H|[H|H]]]]; [| | | |discriminate].
    + exists "BUCKET_NAME". split; [cbn; tauto | exact H].
    + exists "ACCESS_KEY". split; [cbn; tauto | exact H].
    + exists "SECRET_KEY". split; [cbn; tauto | exact H].
    + exists "URL". split; [cbn; tauto | exact H].
  - intros (k & Hk & H). cbn [In] in Hk.
    destruct Hk as [<-|[<-|[<-|[<-|[]]]]]; tauto.
Qed.

Lemma body_writes_nothing (args : Namespace) (s3 : dict) (w : world) (n c : string) :
  ~ In (FileWrite n c) (trace (connect_and_run args s3 w)).
Proof.
  intros H. destruct (tame_connect_and_run args s3 w) as [F _].
  rewrite Forall_forall in F. exact (F _ H).
Qed.

(** The writes of the script are those of its first part. *)
Lemma main_writes (a : argv) (w w1 : world) (args : Namespace) (s3 : dict)
    (t : list event) (n c : string) :
  configure a w = mkOutcome (Ok (args, s3)) w1 t ->
  In (FileWrite n c) (trace (main a w)) <-> In (FileWrite n c) t.
Proof.
  intros H. rewrite (main_after_configure a w w1 args s3 t H).
  pose proof (body_writes_nothing args s3 w1 n c) as B.
  destruct (res (connect_and_run args s3 w1)); cbn [trace];
    rewrite ?in_app_iff; cbn [In]; intuition discriminate.
Qed.

(** A write of the script is the write of [.env] by its first part, with
    the lines of the resolved parameters; the file holds them afterwards
    unless [open] raised. *)
Lemma main_write_inv (a : argv) (w : world) (n c : string) :
  In (FileWrite n c) (trace (main a w)) ->
  n = ".env" /\ c = dotenv_content (resolved a w)
  /\ (open_failure w = None ->
      get_file (resolve w ".env") (files (final (configure a w))) = Some c).
Proof.
  pose proof (configure_run a w) as C.
  destruct (missing_s3_params (resolved a w)) as [|k ks] eqn:M.
  2:{ rewrite main_missing_run by (rewrite M; discriminate).
      cbn [trace In]. intros [H|[H|[]]]; discriminate. }
  destruct (negb (dotenv_exists w)
            && cli_provided_s3_params (args_of a w) (env_params_of w)).
  - destruct (open_failure w) eqn:O.
    + rewrite (main_configure_raises _ _ _ _ _ C). cbn [trace In].
      intros [H|[H|[]]]; [discriminate|]. injection H as <- <-.
      split; [reflexivity|]. split; [reflexivity|]. discriminate.
    + intros H. apply (main_writes _ _ _ _ _ _ n c C) in H.
      destruct H as [H|[H|[]]]; [discriminate|]. injection H as <- <-.
      split; [reflexivity|]. split; [reflexivity|]. intros _.
      rewrite C. cbn [final files set_files]. apply get_put_file.
  - intros H. apply (main_writes _ _ _ _ _ _ n c C) in H. destruct H.
Qed.




End Persistence.

(** ** Resolved parameters, and empty ones *)

Section EmptyParameters.
Import PyStr World World.Notations S3Tool Spec.

(** The body of the [try] starts by announcing the bucket and asking boto3
    for the resource, with the parameters it is given. *)
Lemma body_starts (args : Namespace) (s3 : dict) (w : world) :
  exists t',
    trace (connect_and_run args s3 w) =
      Print ("Connecting to S3 bucket: " ++ fmt (dict_get s3 "BUCKET_NAME"))
      :: Resource (the_str (dict_get s3 "URL")) (the_str (dict_get s3 "ACCESS_KEY"))
                  (the_str (dict_get s3 "SECRET_KEY"))
      :: t'.
Proof.
  unfold connect_and_run, init, connect.
  unfold bind, try_except, print, boto3_resource, raise, ret.
  run; rewrite ?trace_after; cbn [app]; eexists; reflexivity.
Qed.

(** With no parameter missing the script either fails to save them, and
    stops on the exception of [open], or goes on to the connection. *)
Lemma main_connects (a : argv) (w : world) :
  missing_s3_params (resolved a w) = [] ->
  (exists e,
      open_failure w = Some e
      /\ main a w =
         mkOutcome (Raise e) w
           [Print "Saving provided S3 parameters to .env file for future use.";
            FileWrite ".env" (dotenv_content (resolved a w))])
  \/ (exists t',
        trace (main a w) =
          (trace (configure a w)
             ++ Print ("Connecting to S3 bucket: " ++ fmt (dict_get (resolved a w) "BUCKET_NAME"))
             :: Resource (the_str (dict_get (resolved a w) "URL"))
                         (the_str (dict_get (resolved a w) "ACCESS_KEY"))
                         (the_str (dict_get (resolved a w) "SECRET_KEY"))
             :: t')%list).
Proof.
  intros M. pose proof (configure_run a w) as C. rewrite M in C.
  assert (R : forall w1 t,
             configure a w = mkOutcome (Ok (args_of a w, resolved a w)) w1 t ->
             exists t',
               trace (main a w) =
                 (t ++ Print ("Connecting to S3 bucket: "
                                ++ fmt (dict_get (resolved a w) "BUCKET_NAME"))
                    :: Resource (the_str (dict_get (resolved a w) "URL"))
                                (the_str (dict_get (resolved a w) "ACCESS_KEY"))
                                (the_str (dict_get (resolved a w) "SECRET_KEY"))
                    :: t')%list).
  { intros w1 t C1. rewrite (main_after_configure _ _ _ _ _ _ C1).
    destruct (body_starts (args_of a w) (resolved a w) w1) as [t' E].
    destruct (res (connect_and_run (args_of a w) (resolved a w) w1)); cbn [trace]; rewrite E.
    - exists t'. reflexivity.
    - eexists. cbn [app]. reflexivity.
    - exists t'. reflexivity. }
  destruct (negb (dotenv_exists w)
            && cli_provided_s3_params (args_of a w) (env_params_of w)).
  - destruct (open_failure w) as [e|].
    + left. exists e. split; [reflexivity|]. exact (main_configure_raises _ _ _ _ _ C).
    + right. destruct (R _ _ C) as [t' E]. exists t'. now rewrite E, C.
  - right. destruct (R _ _ C) as [t' E]. exists t'. now rewrite E, C.
Qed.

(** C8: each of the four connection parameters the script works with is
    the value of its command-line option when the option is given, and the
    value of the environment otherwise, one parameter independently of the
    others.  These are the values the first part of the script returns; when
    the four are present they are the values the script announces and asks
    the connection with (unless saving them fails, which ends the script);
    when one is absent the script lists the absent ones and exits with
    status 1 before any connection. *)
Theorem C8_option_then_environment
    (a : argv) (w : world) (ak sk b u : option string) :
  ak = match opt_access_key a with
       | Some v => Some v
       | None => lookup "ACCESS_KEY" (environ w)
       end ->
  sk = match opt_secret_key a with
       | Some v => Some v
       | None => lookup "SECRET_KEY" (environ w)
       end ->
  b = match opt_bucket_name a with
      | Some v => Some v
      | None => lookup "BUCKET_NAME" (environ w)
      end ->
  u = match opt_url a with
      | Some v => Some v
      | None => lookup "URL" (environ w)
      end ->
  (forall args s3 w1 t,
      configure a w = mkOutcome (Ok (args, s3)) w1 t ->
      s3 = [("ACCESS_KEY", ak); ("SECRET_KEY", sk); ("BUCKET_NAME", b); ("URL", u)]
      /\ access_key args = ak /\ secret_key args = sk
      /\ bucket_name args = b /\ url args = u)
  /\ (forall ak' sk' b' u',
      ak = Some ak' -> sk = Some sk' -> b = Some b' -> u = Some u' ->
      (exists e c,
          open_failure w = Some e
          /\ main a w =
             mkOutcome (Raise e) w
               [Print "Saving provided S3 parameters to .env file for future use.";
                FileWrite ".env" c])
      \/ (exists t',
            trace (main a w) =
              (trace (configure a w)
                 ++ Print ("Connecting to S3 bucket: " ++ b')
                 :: Resource u' ak' sk' :: t')%list))
  /\ (is_None ak || is_None sk || is_None b || is_None u = true ->
      main a w =
        mkOutcome (Exit 1) w
          [Print ("Error: Missing required S3 connection parameters: "
                    ++ str_join ", "
                         (missing_s3_params
                            [("ACCESS_KEY", ak); ("SECRET_KEY", sk);
                             ("BUCKET_NAME", b); ("URL", u)]));
           Print "Please provide them via command line arguments or a .env file."]
      /\ status a w = 1
      /\ forall u0 ak0 sk0, ~ In (Resource u0 ak0 sk0) (trace (main a w))).
Proof.
  intros Hak Hsk Hb Hu.
  assert (E : resolved a w =
              [("ACCESS_KEY", ak); ("SECRET_KEY", sk); ("BUCKET_NAME", b); ("URL", u)])
    by (subst; reflexivity).
  split; [|split].
  - intros args s3 w1 t C. rewrite configure_run in C.
    destruct (missing_s3_params (resolved a w)); [|discriminate C].
    assert (X : (args, s3) = (args_of a w, resolved a w)).
    { destruct (negb (dotenv_exists w)
                && cli_provided_s3_params (args_of a w) (env_params_of w));
        [destruct (open_failure w); [discriminate C|]|];
        apply (f_equal res) in C; cbn [res] in C; apply Ok_inj in C; now symmetry. }
    pose proof (f_equal fst X) as X1. pose proof (f_equal snd X) as X2.
    cbn [fst snd] in X1, X2. subst args s3.
    split; [exact E|]. subst. repeat split; reflexivity.
  - intros ak' sk' b' u' -> -> -> ->.
    assert (M : missing_s3_params (resolved a w) = []) by (rewrite E; reflexivity).
    destruct (main_connects a w M) as [(e & O & R)|(t' & T)].
    + left. exists e. eexists. split; [exact O | exact R].
    + right. exists t'. rewrite T, E. reflexivity.
  - intros N.
    assert (M : missing_s3_params (resolved a w) <> []).
    { rewrite E. destruct ak, sk, b, u; cbn in N |- *; discriminate. }
    pose proof (main_missing_run a w M) as R. rewrite E in R.
    unfold status. rewrite R. cbn [res trace exit_code In].
    split; [reflexivity|]. split; [reflexivity|].
    intros u0 ak0 sk0 [X|[X|[]]]; discriminate.
Qed.

Lemma C8_option_then_environment_witness :
  (exists t',
      trace (main (mkArgv None (Some "other") None None (CmdLs None)) w_env) =
        Print "Connecting to S3 bucket: bk" :: Resource "http://s3" "other" "SK" :: t')
  /\ status (mkArgv None (Some "AK") None (Some "http://s3") (CmdLs None)) w0 = 1.
Proof.
  split.
  - destruct (proj1 (proj2 (C8_option_then_environment
                              (mkArgv None (Some "other") None None (CmdLs None)) w_env
                              _ _ _ _ eq_refl eq_refl eq_refl eq_refl))
                "other" "SK" "bk" "http://s3" eq_refl eq_refl eq_refl eq_refl)
      as [(e & c & O & _)|(t' & T)].
    + discriminate O.
    + exists t'. exact T.
  - exact (proj1 (proj2 (proj2 (proj2 (C8_option_then_environment
                              (mkArgv None (Some "AK") None (Some "http://s3") (CmdLs None)) w0
                              _ _ _ _ eq_refl eq_refl eq_refl eq_refl)) eq_refl))).
Defined.

(** *** The lines of the configuration file *)

Lemma append_assoc (a b c : string) : (a ++ b) ++ c = a ++ b ++ c.
Proof. induction a as [|x r IH]; cbn [append]; [reflexivity | now rewrite IH]. Qed.

Lemma append_nil_r (a : string) : a ++ EmptyString = a.
Proof. induction a as [|x r IH]; cbn [append]; [reflexivity | now rewrite IH]. Qed.

Lemma contains_append (c : ascii) (a b : string) :
  contains c (a ++ b) = contains c a || contains c b.
Proof.
  induction a as [|x r IH]; cbn [append contains]; [reflexivity|].
  now rewrite IH, orb_assoc.
Qed.

Lemma lines_segment (a b : string) :
  contains lf a = false -> lines (a ++ LF ++ b) = a :: lines b.
Proof.
  change (LF ++ b) with (String lf b).
  induction a as [|c r IH]; cbn [append lines contains]; [reflexivity|].
  intros H. apply orb_false_iff in H as [Hc Hr].
  rewrite Hc, (IH Hr). reflexivity.
Qed.

(** What one [if s3_params[k]: f.write(...)] adds to the lines of the
    file. *)
Lemma lines_dotenv_line (d : dict) (k rest : string) :
  contains lf k = false ->
  contains lf (the_str (dict_get d k)) = false ->
  lines (dotenv_line d k ++ rest) =
    ((if truthy_opt (dict_get d k) then [(k ++ "=" ++ the_str (dict_get d k))%string] else [])
       ++ lines rest)%list.
Proof.
  intros Hk Hv. unfold dotenv_line.
  destruct (truthy_opt (dict_get d k)); [|reflexivity].
  replace ((k ++ "=" ++ the_str (dict_get d k) ++ LF) ++ rest)
    with ((k ++ "=" ++ the_str (dict_get d k)) ++ LF ++ rest)
    by now rewrite !append_assoc.
  apply lines_segment. rewrite !contains_append, Hk, Hv. reflexivity.
Qed.

(** The lines of the file the script writes: one per parameter that is
    neither [None] nor empty, in the order of the four [if], and the empty
    piece after the last line feed. *)
Lemma lines_dotenv_content (ak sk b u : option string) :
  (forall v, In v [ak; sk; b; u] -> contains lf (the_str v) = false) ->
  lines (dotenv_content
           [("ACCESS_KEY", ak); ("SECRET_KEY", sk); ("BUCKET_NAME", b); ("URL", u)]) =
    ((if truthy_opt ak then [("ACCESS_KEY=" ++ the_str ak)%string] else [])
       ++ (if truthy_opt sk then [("SECRET_KEY=" ++ the_str sk)%string] else [])
       ++ (if truthy_opt b then [("BUCKET_NAME=" ++ the_str b)%string] else [])
       ++ (if truthy_opt u then [("URL=" ++ the_str u)%string] else [])
       ++ [EmptyString])%list.
Proof.
  intros H. unfold dotenv_content.
  rewrite <- (append_nil_r (dotenv_line _ "URL")).
  rewrite !lines_dotenv_line; try reflexivity.
  all: apply H; cbn [In]; auto.
Qed.

(** C9: a connection parameter that resolves to the empty string is not
    missing: the check does not list it, and when no parameter is [None]
    the script goes on to announce the bucket and to ask for the connection
    with the resolved values, empty ones included (unless saving them fails,
    which ends the script).  It is not saved: whenever the script writes
    the configuration file, the file is [.env], its lines are those of the
    parameters that are neither absent nor empty, and none of them starts with
    the name of the empty parameter followed by [=]; this is the content the
    file holds once the first part of the script has run. *)
Theorem C9_empty_string_is_present_but_not_saved
    (a : argv) (w : world) (ak sk b u : option string) (k : string) :
  ak = match opt_access_key a with
       | Some v => Some v
       | None => lookup "ACCESS_KEY" (environ w)
       end ->
  sk = match opt_secret_key a with
       | Some v => Some v
       | None => lookup "SECRET_KEY" (environ w)
       end ->
  b = match opt_bucket_name a with
      | Some v => Some v
      | None => lookup "BUCKET_NAME" (environ w)
      end ->
  u = match opt_url a with
      | Some v => Some v
      | None => lookup "URL" (environ w)
      end ->
  In (k, Some EmptyString)
     [("ACCESS_KEY", ak); ("SECRET_KEY", sk); ("BUCKET_NAME", b); ("URL", u)] ->
  ~ In k (missing_s3_params
            [("ACCESS_KEY", ak); ("SECRET_KEY", sk); ("BUCKET_NAME", b); ("URL", u)])
  /\ (is_None ak || is_None sk || is_None b || is_None u = true ->
      main a w =
        mkOutcome (Exit 1) w
          [Print ("Error: Missing required S3 connection parameters: "
                    ++ str_join ", "
                         (missing_s3_params
                            [("ACCESS_KEY", ak); ("SECRET_KEY", sk);
                             ("BUCKET_NAME", b); ("URL", u)]));
           Print "Please provide them via command line arguments or a .env file."])
  /\ (is_None ak || is_None sk || is_None b || is_None u = false ->
      (exists e c,
          open_failure w = Some e
          /\ main a w =
             mkOutcome (Raise e) w
               [Print "Saving provided S3 parameters to .env file for future use.";
                FileWrite ".env" c])
      \/ (exists t',
            trace (main a w) =
              (trace (configure a w)
                 ++ Print ("Connecting to S3 bucket: " ++ the_str b)
                 :: Resource (the_str u) (the_str ak) (the_str sk) :: t')%list))
  /\ (forall n c,
      In (FileWrite n c) (trace (main a w)) ->
      n = ".env"
      /\ ((forall v, In v [ak; sk; b; u] -> contains lf (the_str v) = false) ->
          lines c =
            ((if truthy_opt ak then [("ACCESS_KEY=" ++ the_str ak)%string] else [])
               ++ (if truthy_opt sk then [("SECRET_KEY=" ++ the_str sk)%string] else [])
               ++ (if truthy_opt b then [("BUCKET_NAME=" ++ the_str b)%string] else [])
               ++ (if truthy_opt u then [("URL=" ++ the_str u)%string] else [])
               ++ [EmptyString])%list
          /\ forall l, In l (lines c) -> startswith l (k ++ "=") = false)
      /\ (open_failure w = None ->
          get_file (resolve w ".env") (files (final (configure a w))) = Some c)).
Proof.
  intros Hak Hsk Hb Hu Hk.
  assert (E : resolved a w =
              [("ACCESS_KEY", ak); ("SECRET_KEY", sk); ("BUCKET_NAME", b); ("URL", u)])
    by (subst; reflexivity).
  clear Hak Hsk Hb Hu.
  split; [|split; [|split]].
  - rewrite missing_iff. revert Hk. cbn [In].
    intros [H|[H|[H|[H|[]]]]] [X|[X|[X|[X|[]]]]]; congruence.
  - intros N. rewrite <- E. apply main_missing_run.
    rewrite E. destruct ak, sk, b, u; cbn in N |- *; discriminate.
  - intros N.
    assert (M : missing_s3_params (resolved a w) = []).
    { rewrite E. destruct ak, sk, b, u; cbn in N |- *; try discriminate; reflexivity. }
    destruct (main_connects a w M) as [(e & O & R)|(t' & T)].
    + left. exists e. eexists. split; [exact O | exact R].
    + right. exists t'. rewrite T, E.
      destruct b; [reflexivity|]. destruct ak, sk, u; discriminate N.
  - intros n c H. destruct (main_write_inv a w n c H) as (-> & -> & G).
    split; [reflexivity|]. split; [|exact G].
    intros V. rewrite E, (lines_dotenv_content ak sk b u V).
    split; [reflexivity|].
    cbn [In] in Hk. destruct Hk as [Hk|[Hk|[Hk|[Hk|[]]]]];
      pose proof (f_equal fst Hk) as K; pose proof (f_equal snd Hk) as X;
      cbn [fst snd] in K, X; subst k; rewrite X; cbn [truthy_opt truthy app].
    all: repeat match goal with
           | |- context [truthy_opt ?v] => destruct (truthy_opt v)
           end; cbn [app In]; intros l L;
      repeat (destruct L as [<-|L]; [reflexivity|]); destruct L.
Qed.

Lemma C9_empty_string_is_present_but_not_saved_witness :
  (exists t',
      trace (main (mkArgv (Some "bk") (Some "AK") (Some "SK") (Some EmptyString)
                          (CmdLs None)) w0) =
        [Print "Saving provided S3 parameters to .env file for future use.";
         FileWrite ".env" ("ACCESS_KEY=AK" ++ LF ++ "SECRET_KEY=SK" ++ LF
                             ++ "BUCKET_NAME=bk" ++ LF);
         Print "Connecting to S3 bucket: bk"; Resource EmptyString "AK" "SK"] ++ t')%list
  /\ lines ("ACCESS_KEY=AK" ++ LF ++ "SECRET_KEY=SK" ++ LF ++ "BUCKET_NAME=bk" ++ LF)
     = ["ACCESS_KEY=AK"; "SECRET_KEY=SK"; "BUCKET_NAME=bk"; EmptyString]
  /\ (forall l,
        In l (lines ("ACCESS_KEY=AK" ++ LF ++ "SECRET_KEY=SK" ++ LF ++ "BUCKET_NAME=bk" ++ LF)) ->
        startswith l "URL=" = false)
  /\ get_file ["home"; "u"; ".env"]
       (files (final (configure (mkArgv (Some "bk") (Some "AK") (Some "SK") (Some EmptyString)
                                        (CmdLs None)) w0)))
     = Some ("ACCESS_KEY=AK" ++ LF ++ "SECRET_KEY=SK" ++ LF ++ "BUCKET_NAME=bk" ++ LF).
Proof.
  assert (K : In ("URL", Some EmptyString)
                 [("ACCESS_KEY", Some "AK"); ("SECRET_KEY", Some "SK");
                  ("BUCKET_NAME", Some "bk"); ("URL", Some EmptyString)])
    by (cbn [In]; auto).
  destruct (C9_empty_string_is_present_but_not_saved
              (mkArgv (Some "bk") (Some "AK") (Some "SK") (Some EmptyString) (CmdLs None))
              w0 _ _ _ _ "URL" eq_refl eq_refl eq_refl eq_refl K)
    as (_ & _ & P & W).
  destruct (P eq_refl) as [(e & c & O & _)|(t' & T)]; [discriminate O|].
  assert (F : In (FileWrite ".env" ("ACCESS_KEY=AK" ++ LF ++ "SECRET_KEY=SK" ++ LF
                                      ++ "BUCKET_NAME=bk" ++ LF))
                 (trace (main (mkArgv (Some "bk") (Some "AK") (Some "SK") (Some EmptyString)
                                      (CmdLs None)) w0)))
    by (rewrite T; right; left; reflexivity).
  destruct (W _ _ F) as (_ & L & G).
  assert (V : forall v, In v [Some "AK"; Some "SK"; Some "bk"; Some EmptyString] ->
                        contains lf (the_str v) = false)
    by (cbn [In]; intros v [<-|[<-|[<-|[<-|[]]]]]; reflexivity).
  destruct (L V) as [L1 L2].
  split; [exists t'; exact T|]. split; [exact L1|]. split; [exact L2|].
  exact (G eq_refl).
Defined.

(** With the four parameters given as empty strings the check passes, an
    empty configuration file is written and the connection is asked for. *)
Lemma all_empty_parameters_run :
  trace (configure (mkArgv (Some EmptyString) (Some EmptyString) (Some EmptyString)
                           (Some EmptyString) (CmdLs None)) w0)
  = [Print "Saving provided S3 parameters to .env file for future use.";
     FileWrite ".env" EmptyString].
Proof. reflexivity. Qed.

End EmptyParameters.

(** ** Downloading *)

Section Downloading.
Import PyStr World World.Notations S3Tool Spec.

Lemma resolve_set_dirs (w : world) (d : list path) (n : string) :
  resolve (set_dirs w d) n = resolve w n.
Proof. reflexivity. Qed.

(** C10: for every key, when no destination is given ([None] or the empty
    string) [download_file] takes the base name of the key in the current
    directory as the destination, whatever the file system holds there:
    this is the only path whose directory it creates and the only path it
    downloads to, and the path that holds the object when it succeeds.  The
    destination is [os.path.join(os.getcwd(), basename(key))]: the current
    directory, a separator and the base name, as the same location always
    and letter for letter unless the current directory is the root. *)
Theorem C10_default_destination
    (self : Bucket) (key : string) (dest : option string) (w : world) :
  truthy_opt dest = false ->
  (forall n, In (Makedirs n) (trace (download_file self key dest w)) ->
     n = dirname (join (cwd w) (basename key)))
  /\ (forall b k p, In (DownloadFile b k p) (trace (download_file self key dest w)) ->
     b = self_bucket_name self /\ k = key /\ p = join (cwd w) (basename key))
  /\ (forall u, res (download_file self key dest w) = Ok u ->
     In (DownloadFile (self_bucket_name self) key (join (cwd w) (basename key)))
        (trace (download_file self key dest w))
     /\ exists objs body,
          lookup (self_bucket_name self) (buckets w) = Some objs
          /\ lookup key objs = Some body
          /\ get_file (resolve w (join (cwd w) (basename key)))
                      (files (final (download_file self key dest w))) = Some body)
  /\ (truthy (cwd w) = true -> endswith (cwd w) "/" = false ->
      join (cwd w) (basename key) = cwd w ++ "/" ++ basename key)
  /\ (truthy (cwd w) = true ->
      same_location (join (cwd w) (basename key)) (cwd w ++ "/" ++ basename key)).
Proof.
  intros H.
  split; [|split; [|split; [|split]]].
  - intros n.
    unfold download_file, get_bucket, creation_date, getcwd, makedirs, s3_download_file, print.
    unfold try_except, bind, raise, ret. rewrite H. cbn [negb].
    run; cbn [In]; intros X; decompose [or] X; try discriminate; try contradiction.
    all: match goal with E : Makedirs _ = Makedirs _ |- _ => now injection E end.
  - intros b k p.
    unfold download_file, get_bucket, creation_date, getcwd, makedirs, s3_download_file, print.
    unfold try_except, bind, raise, ret. rewrite H. cbn [negb].
    run; cbn [In]; intros X; decompose [or] X; try discriminate; try contradiction.
    all: match goal with
         | E : DownloadFile _ _ _ = DownloadFile _ _ _ |- _ =>
             injection E as <- <- <-; repeat split
         end.
  - intros u.
    unfold download_file, get_bucket, creation_date, getcwd, makedirs, s3_download_file, print.
    unfold try_except, bind, raise, ret. rewrite H. cbn [negb].
    run; intros X; try discriminate X.
    all: cbn [In set_files set_dirs files buckets cwd] in *.
    all: split; [tauto|].
    all: repeat match goal with
           | H1 : ?x = Some _, H2 : ?x = Some _ |- _ => rewrite H1 in H2; injection H2 as <-
           end.
    all: do 2 eexists; repeat split; try eassumption.
    all: rewrite resolve_set_dirs; apply get_put_file.
  - intros T E. apply join_literal; [exact T | exact E | apply basename_no_sep].
  - intros T. apply join_same_location; [exact T | apply basename_no_sep].
Qed.

Lemma C10_default_destination_witness :
  In (DownloadFile "bk" "a/b.txt" "/home/u/b.txt") (trace (download_file bk "a/b.txt" None w0))
  /\ join (cwd w0) (basename "a/b.txt") = "/home/u/b.txt".
Proof.
  split.
  - exact (proj1 (proj1 (proj2 (proj2 (C10_default_destination bk "a/b.txt" None w0 eq_refl)))
                    tt eq_refl)).
  - exact (proj1 (proj2 (proj2 (proj2 (C10_default_destination bk "a/b.txt" None w0 eq_refl))))
             eq_refl eq_refl).
Defined.

Lemma no_sep_rfind_zero (p : string) :
  contains sep p = false -> rfind_sep_succ p = 0.
Proof.
  induction p as [|c r IH]; cbn [rfind_sep_succ contains]; [reflexivity|].
  intros H. apply orb_false_iff in H as [Hc Hr].
  now rewrite (IH Hr), Hc.
Qed.

(** A path with no separator has an empty directory name. *)
Lemma dirname_no_sep (d : string) : contains sep d = false -> dirname d = EmptyString.
Proof.
  intros H. unfold dirname. rewrite (no_sep_rfind_zero d H).
  destruct d; reflexivity.
Qed.

(** The calls of [download_file] for a destination that is given, in
    order: the bucket is looked up, the directory of the final destination
    is created, the object is downloaded there, the success is printed;
    the method stops at the first call that raises.  The final destination
    is the base name of the key inside the destination when this is a
    directory, the destination itself otherwise. *)
Lemma download_file_calls (self : Bucket) (key d : string) (w : world)
    (p := if is_dir w (resolve w d) then join d (basename key) else d) :
  truthy d = true ->
  trace (download_file self key (Some d) w) = [CreationDate (self_bucket_name self)]
  \/ trace (download_file self key (Some d) w) =
       [CreationDate (self_bucket_name self); Makedirs (dirname p)]
  \/ trace (download_file self key (Some d) w) =
       [CreationDate (self_bucket_name self); Makedirs (dirname p);
        DownloadFile (self_bucket_name self) key p]
  \/ trace (download_file self key (Some d) w) =
       [CreationDate (self_bucket_name self); Makedirs (dirname p);
        DownloadFile (self_bucket_name self) key p;
        Print ("Downloaded '" ++ key ++ "' to '" ++ p ++ "'")].
Proof.
  intros T. subst p.
  unfold download_file, get_bucket, creation_date, isdir, makedirs, s3_download_file, print.
  unfold try_except, bind, raise, ret.
  cbn [truthy_opt the_str]. rewrite T. cbn [negb andb res final trace app].
  run; try congruence; auto 8.
Qed.

(** A destination that is a bare file name, not a directory, has an empty
    directory name, on which [os.makedirs] raises: nothing is downloaded,
    whatever the key and the bucket. *)
Lemma download_to_bare_name_fails (self : Bucket) (key d : string) (w : world) :
  truthy d = true ->
  contains sep d = false ->
  is_dir w (resolve w d) = false ->
  (forall u, res (download_file self key (Some d) w) <> Ok u)
  /\ (forall b k p, ~ In (DownloadFile b k p) (trace (download_file self key (Some d) w)))
  /\ final (download_file self key (Some d) w) = w.
Proof.
  intros T N D. pose proof (dirname_no_sep d N) as DN.
  unfold download_file, get_bucket, creation_date, isdir, makedirs, s3_download_file, print.
  unfold try_except, bind, raise, ret.
  cbn [truthy_opt the_str].
  run; rewrite ?T, ?D, ?DN in *; cbn [truthy negb andb] in *; try congruence.
  all: repeat split; try discriminate; cbn [In]; intros; intuition discriminate.
Qed.

(** C6, where the code departs from it: the destination [out.txt] is not
    a directory, so the claim has the object written to [out.txt]; the
    method raises on [os.makedirs('')] before any download, the world is
    left as it was and the script exits with status 1. *)
Theorem C6_bare_file_name_destination_fails :
  res (isdir "out.txt" w0) = Ok false
  /\ download_file bk "a/b.txt" (Some "out.txt") w0 =
     mkOutcome
       (Raise "Error downloading file 'a/b.txt' from bucket 'bk': [Errno 2] No such file or directory: ''")
       w0 [CreationDate "bk"; Makedirs EmptyString]
  /\ status (cl (CmdDownload "a/b.txt" (Some "out.txt"))) w0 = 1.
Proof. repeat split. Qed.

(** The parts of C6 the code does: into a directory, and to a path with
    a directory part. *)
Lemma download_into_directory_run :
  trace (download_file bk "a/b.txt" (Some "out") w0) =
    [CreationDate "bk"; Makedirs "out"; DownloadFile "bk" "a/b.txt" "out/b.txt";
     Print "Downloaded 'a/b.txt' to 'out/b.txt'"]
  /\ get_file ["home"; "u"; "out"; "b.txt"]
       (files (final (download_file bk "a/b.txt" (Some "out") w0))) = Some "B".
Proof. split; reflexivity. Qed.

Lemma download_to_new_path_run :
  trace (download_file bk "a/b.txt" (Some "new/sub/b.bin") w0) =
    [CreationDate "bk"; Makedirs "new/sub"; DownloadFile "bk" "a/b.txt" "new/sub/b.bin";
     Print "Downloaded 'a/b.txt' to 'new/sub/b.bin'"]
  /\ dirs (final (download_file bk "a/b.txt" (Some "new/sub/b.bin") w0)) =
       [["home"]; ["home"; "u"]; ["home"; "u"; "out"];
        ["home"; "u"; "new"]; ["home"; "u"; "new"; "sub"]]
  /\ get_file ["home"; "u"; "new"; "sub"; "b.bin"]
       (files (final (download_file bk "a/b.txt" (Some "new/sub/b.bin") w0))) = Some "B".
Proof. repeat split. Qed.

End Downloading.

(** ** Association lists *)

Section AssocLists.
Import World.
Context {V : Type}.

Lemma lookup_upsert_same (k : string) (v : V) (l : list (string * V)) :
  lookup k (upsert k v l) = Some v.
Proof.
  induction l as [|[q v'] r IH]; cbn [upsert lookup].
  - now rewrite String.eqb_refl.
  - destruct (String.eqb q k) eqn:E; cbn [lookup].
    + now rewrite String.eqb_refl.
    + now rewrite E.
Qed.

Lemma lookup_upsert_other (k k' : string) (v : V) (l : list (string * V)) :
  k' <> k -> lookup k' (upsert k v l) = lookup k' l.
Proof.
  intros N. apply not_eq_sym in N. apply String.eqb_neq in N.
  induction l as [|[q v'] r IH]; cbn [upsert lookup].
  - now rewrite N.
  - destruct (String.eqb q k) eqn:E; cbn [lookup].
    + apply String.eqb_eq in E. subst q. now rewrite N.
    + now rewrite IH.
Qed.

Lemma upsert_upsert (k : string) (v v' : V) (l : list (string * V)) :
  upsert k v (upsert k v' l) = upsert k v l.
Proof.
  induction l as [|[q u] r IH]; cbn [upsert].
  - now rewrite String.eqb_refl.
  - destruct (String.eqb q k) eqn:E; cbn [upsert].
    + now rewrite String.eqb_refl.
    + now rewrite E, IH.
Qed.

Lemma lookup_remove_same (k : string) (l : list (string * V)) :
  lookup k (remove_key k l) = None.
Proof.
  induction l as [|[q u] r IH]; cbn [remove_key lookup]; [reflexivity|].
  destruct (String.eqb q k) eqn:E; cbn [lookup]; [exact IH | now rewrite E].
Qed.

Lemma lookup_remove_other (k k' : string) (l : list (string * V)) :
  k' <> k -> lookup k' (remove_key k l) = lookup k' l.
Proof.
  intros N. apply not_eq_sym in N. apply String.eqb_neq in N.
  induction l as [|[q u] r IH]; cbn [remove_key lookup]; [reflexivity|].
  destruct (String.eqb q k) eqn:E; cbn [lookup].
  - apply String.eqb_eq in E. subst q. now rewrite N.
  - now rewrite IH.
Qed.

Lemma remove_key_idem (k : string) (l : list (string * V)) :
  remove_key k (remove_key k l) = remove_key k l.
Proof.
  induction l as [|[q u] r IH]; cbn [remove_key]; [reflexivity|].
  destruct (String.eqb q k) eqn:E; cbn [remove_key]; [exact IH | now rewrite E, IH].
Qed.

End AssocLists.

(** ** Access to the bucket *)

Section BucketAccess.
Import PyStr World World.Notations S3Tool Spec.

(** [get_bucket] makes one request and changes nothing; it returns the
    bucket when the service answers and has it, and raises otherwise, the
    exception of its own [raise] being caught and wrapped like any other. *)
Lemma get_bucket_run (self : Bucket) (n : string) (w : world) :
  get_bucket self n w =
  mkOutcome
    (match request_failure w with
     | Some e => Raise ("Error accessing bucket '" ++ n ++ "': " ++ e)
     | None =>
         match lookup n (buckets w) with
         | Some _ => Ok n
         | None =>
             Raise ("Error accessing bucket '" ++ n ++ "': "
                      ++ "Bucket '" ++ n ++ "' does not exist or is not accessible.")
         end
     end)
    w [CreationDate n].
Proof.
  unfold get_bucket, creation_date, try_except, bind, raise, ret.
  destruct (request_failure w); [reflexivity|].
  destruct (lookup n (buckets w)); reflexivity.
Qed.

(** When the bucket cannot be reached or is not there, each of the four
    operations raises the message of [get_bucket] behind its own prefix,
    has made no other call than the look-up of the bucket, and leaves the
    world as it was: nothing is listed, sent, created, written or deleted. *)
Theorem operations_need_the_bucket (self : Bucket) (w : world) (e : string) :
  res (get_bucket self (self_bucket_name self) w) = Raise e ->
  (forall d, ls self d w =
     mkOutcome (Raise ("Error listing objects in bucket '" ++ self_bucket_name self
                         ++ "': " ++ e))
               w [CreationDate (self_bucket_name self)])
  /\ (forall f o, upload_file self f o w =
     mkOutcome (Raise ("Error uploading file '" ++ f ++ "' to bucket '"
                         ++ self_bucket_name self ++ "': " ++ e))
               w [CreationDate (self_bucket_name self)])
  /\ (forall k d, download_file self k d w =
     mkOutcome (Raise ("Error downloading file '" ++ k ++ "' from bucket '"
                         ++ self_bucket_name self ++ "': " ++ e))
               w [CreationDate (self_bucket_name self)])
  /\ (forall k, delete_file self k w =
     mkOutcome (Raise ("Error deleting file '" ++ k ++ "' from bucket '"
                         ++ self_bucket_name self ++ "': " ++ e))
               w [CreationDate (self_bucket_name self)]).
Proof.
  intros H.
  assert (G : get_bucket self (self_bucket_name self) w =
              mkOutcome (Raise e) w [CreationDate (self_bucket_name self)]).
  { rewrite get_bucket_run in H |- *. cbn [res] in H.
    destruct (request_failure w); [now rewrite H|].
    destruct (lookup (self_bucket_name self) (buckets w)); [discriminate H | now rewrite H]. }
  repeat split; intros.
  - unfold ls, try_except, bind. rewrite G. reflexivity.
  - unfold upload_file, try_except, bind. rewrite G. reflexivity.
  - unfold download_file, try_except, bind. rewrite G. reflexivity.
  - unfold delete_file, try_except, bind. rewrite G. reflexivity.
Qed.

Lemma operations_need_the_bucket_witness :
  delete_file bk "a/b.txt" w_down =
  mkOutcome
    (Raise "Error deleting file 'a/b.txt' from bucket 'bk': Error accessing bucket 'bk': Could not connect to the endpoint URL")
    w_down [CreationDate "bk"].
Proof.
  exact (proj2 (proj2 (proj2 (operations_need_the_bucket bk w_down _ eq_refl))) "a/b.txt").
Defined.

(** When [boto3.resource] raises, whatever the action, the body of the
    [try] stops on the wrapped exception after announcing the bucket: no
    request is sent to the service and the world is unchanged. *)
Theorem connection_failure_stops_the_action
    (args : Namespace) (s3 : dict) (w : world) (e : string) :
  resource_failure w = Some e ->
  connect_and_run args s3 w =
  mkOutcome (Raise ("Error connecting to resource: " ++ e)) w
    [Print ("Connecting to S3 bucket: " ++ fmt (dict_get s3 "BUCKET_NAME"));
     Resource (the_str (dict_get s3 "URL")) (the_str (dict_get s3 "ACCESS_KEY"))
              (the_str (dict_get s3 "SECRET_KEY"))].
Proof.
  intros H.
  unfold connect_and_run, init, connect.
  unfold bind, try_except, print, boto3_resource, raise, ret.
  cbn [after app]. rewrite H. reflexivity.
Qed.

Lemma connection_failure_stops_the_action_witness :
  connect_and_run (args_of (cl (CmdUpload "r.txt" None)) w_refused)
                  (resolved (cl (CmdUpload "r.txt" None)) w_refused) w_refused
  = mkOutcome (Raise "Error connecting to resource: Invalid endpoint: nowhere") w_refused
      [Print "Connecting to S3 bucket: bk"; Resource "http://s3" "AK" "SK"].
Proof.
  exact (connection_failure_stops_the_action
           (args_of (cl (CmdUpload "r.txt" None)) w_refused)
           (resolved (cl (CmdUpload "r.txt" None)) w_refused)
           w_refused "Invalid endpoint: nowhere" eq_refl).
Defined.

End BucketAccess.

(** ** Listing, and what the script prints of it *)

Section ListingMore.
Import PyStr World World.Notations S3Tool Spec.

(** A listing that succeeds leaves the world as it was and makes two
    calls: the look-up of the bucket and the request for its objects. *)
Lemma ls_inv (self : Bucket) (d : string) (w : world) (ks : list string) :
  res (ls self d w) = Ok ks ->
  final (ls self d w) = w
  /\ trace (ls self d w) =
     [CreationDate (self_bucket_name self);
      ListObjects (self_bucket_name self)
        (if truthy d then Some (if endswith d "/" then d else d ++ "/") else None)].
Proof.
  unfold ls, try_except, bind. rewrite get_bucket_run. unfold object_keys.
  destruct (request_failure w) eqn:R; cbn [after app res final]; [discriminate|].
  destruct (lookup (self_bucket_name self) (buckets w)) as [objs|] eqn:L;
    cbn [after app res final]; [|discriminate].
  destruct (truthy d) eqn:T; cbn [negb orb after app res final];
    rewrite R, L; cbn [after app res final trace]; intros _.
  - destruct (endswith d "/"); split; reflexivity.
  - split; reflexivity.
Qed.

(** A listing that succeeds changes nothing, and returns the keys of the
    bucket in their order: all of them for the empty directory, otherwise
    those that start with the directory followed by a separator (added
    when the directory does not end with one). *)
Theorem ls_returns_the_keys_under_the_prefix
    (self : Bucket) (d : string) (w : world) (ks : list string) :
  res (ls self d w) = Ok ks ->
  final (ls self d w) = w
  /\ trace (ls self d w) =
     [CreationDate (self_bucket_name self);
      ListObjects (self_bucket_name self)
        (if truthy d then Some (if endswith d "/" then d else d ++ "/") else None)]
  /\ exists objs,
       lookup (self_bucket_name self) (buckets w) = Some objs
       /\ ks = if truthy d
               then filter (fun k => startswith k (if endswith d "/" then d else d ++ "/"))
                           (map fst objs)
               else map fst objs.
Proof.
  unfold ls, try_except, bind. rewrite get_bucket_run. unfold object_keys.
  destruct (request_failure w) eqn:R; cbn [after app res final]; [discriminate|].
  destruct (lookup (self_bucket_name self) (buckets w)) as [objs|] eqn:L;
    cbn [after app res final]; [|discriminate].
  destruct (truthy d) eqn:T; cbn [negb orb after app res final];
    rewrite R, L; cbn [after app res final trace]; intros H; apply Ok_inj in H; subst ks.
  - destruct (endswith d "/"); (split; [reflexivity|]); (split; [reflexivity|]);
      exists objs; split; reflexivity.
  - split; [reflexivity|]. split; [reflexivity|]. exists objs. split; reflexivity.
Qed.

Lemma ls_returns_the_keys_under_the_prefix_witness :
  res (ls bk "dir" w0) = Ok ["dir/x"] /\ final (ls bk "dir" w0) = w0.
Proof.
  split; [reflexivity|].
  exact (proj1 (ls_returns_the_keys_under_the_prefix bk "dir" w0 ["dir/x"] eq_refl)).
Defined.

(** The loop of lines 183-184 prints one line per key, in order, and does
    nothing else. *)
Lemma print_all_run (l : list string) (w : world) :
  fold_right (fun f k => print ("- " ++ f) ;;; k) (ret tt) l w =
  mkOutcome (Ok tt) w (map (fun f => Print ("- " ++ f)) l).
Proof.
  induction l as [|x r IH]; cbn [fold_right map]; [reflexivity|].
  unfold bind at 1. unfold print at 1. rewrite IH. reflexivity.
Qed.

Lemma printed_prints (l : list string) :
  printed (map (fun f => Print ("- " ++ f)) l) = map (fun f => "- " ++ f) l.
Proof.
  induction l as [|x r IH]; [reflexivity|].
  cbn [map]. unfold printed in *. cbn [flat_map app]. now rewrite IH.
Qed.

(** The [ls] action, when the connection is made and the listing returns
    [ks]: the script announces the bucket and the prefix (a separator
    standing for the empty one), then prints one line per key, in the
    order of the listing, or that no object was found; it ends normally
    and leaves the world as it was. *)
Theorem ls_action_prints_the_listing
    (args : Namespace) (s3 : dict) (d : string) (w : world) (ks : list string) :
  act args = Ls d ->
  resource_failure w = None ->
  res (ls (mkBucket (the_str (dict_get s3 "URL")) (the_str (dict_get s3 "ACCESS_KEY"))
                    (the_str (dict_get s3 "SECRET_KEY")) (the_str (dict_get s3 "BUCKET_NAME")))
          d w) = Ok ks ->
  res (connect_and_run args s3 w) = Ok tt
  /\ final (connect_and_run args s3 w) = w
  /\ printed (trace (connect_and_run args s3 w)) =
     ("Connecting to S3 bucket: " ++ fmt (dict_get s3 "BUCKET_NAME"))
     :: ("Listing objects in bucket '" ++ fmt (dict_get s3 "BUCKET_NAME")
           ++ "' (prefix: '" ++ or_else (Some d) "/" ++ "'):")
     :: match ks with
        | [] => ["No objects found."]
        | _ => map (fun f => "- " ++ f) ks
        end.
Proof.
  intros A R H.
  destruct (ls_inv _ _ _ _ H) as (F & T).
  assert (X : exists t,
             connect_and_run args s3 w = mkOutcome (Ok tt) w t
             /\ printed t =
                ("Connecting to S3 bucket: " ++ fmt (dict_get s3 "BUCKET_NAME"))
                :: ("Listing objects in bucket '" ++ fmt (dict_get s3 "BUCKET_NAME")
                      ++ "' (prefix: '" ++ or_else (Some d) "/" ++ "'):")
                :: match ks with
                   | [] => ["No objects found."]
                   | _ => map (fun f => "- " ++ f) ks
                   end).
  { unfold connect_and_run, init, connect. rewrite A.
    unfold bind at 1. unfold print at 1.
    unfold bind at 1. unfold bind at 1. unfold try_except at 1. unfold boto3_resource at 1.
    rewrite R. cbn [after app]. unfold ret at 1. cbn [after app].
    unfold bind at 1. unfold print at 1. cbn [after app].
    unfold bind at 1.
    destruct (ls _ d w) as [r w' t] eqn:E. cbn [res final trace] in H, F, T. subst r w' t.
    destruct ks as [|k ks'].
    - unfold print. cbn [after app]. eexists. split; [reflexivity|]. reflexivity.
    - rewrite print_all_run. cbn [after app]. eexists. split; [reflexivity|].
      unfold printed. cbn [flat_map app]. do 2 f_equal.
      apply printed_prints. }
  destruct X as (t & -> & P). cbn [res final trace]. repeat split. exact P.
Qed.

Lemma ls_action_prints_the_listing_witness :
  printed (trace (connect_and_run (args_of (cl (CmdLs (Some "dir"))) w0)
                                  (resolved (cl (CmdLs (Some "dir"))) w0) w0))
  = ["Connecting to S3 bucket: bk";
     "Listing objects in bucket 'bk' (prefix: 'dir'):";
     "- dir/x"].
Proof.
  exact (proj2 (proj2 (ls_action_prints_the_listing
                         (args_of (cl (CmdLs (Some "dir"))) w0)
                         (resolved (cl (CmdLs (Some "dir"))) w0)
                         "dir" w0 ["dir/x"] eq_refl eq_refl eq_refl))).
Defined.

End ListingMore.

(** ** The script as a whole *)

Section WholeScript.
Import PyStr World World.Notations S3Tool Spec.



(** The names of the missing parameters come in the order of the
    [s3_params] dict, each at most once, whatever was given on the command
    line. *)
Theorem missing_names_in_dict_order (a : argv) (w : world) :
  missing_s3_params (resolved a w) =
    filter (fun k => is_None (dict_get (resolved a w) k))
           ["ACCESS_KEY"; "SECRET_KEY"; "BUCKET_NAME"; "URL"]
  /\ NoDup (missing_s3_params (resolved a w)).
Proof.
  assert (E : missing_s3_params (resolved a w) =
              filter (fun k => is_None (dict_get (resolved a w) k))
                     ["ACCESS_KEY"; "SECRET_KEY"; "BUCKET_NAME"; "URL"]).
  { unfold resolved, s3_params_of, missing_s3_params, dict_get.
    cbn [filter map fst snd lookup String.eqb Ascii.eqb Bool.eqb].
    destruct (access_key (args_of a w)), (secret_key (args_of a w)),
      (bucket_name (args_of a w)), (url (args_of a w)); reflexivity. }
  split; [exact E|]. rewrite E. apply NoDup_filter.
  repeat constructor; cbn [In]; intuition discriminate.
Qed.

(** The parameters are saved before they are tried.  When the script is
    to save them and [open] does not fail, it announces the save and writes
    [.env], and only then announces the bucket and asks for the connection;
    when the connection is refused the script exits with status 1 and the
    file stays, holding the parameters that were refused. *)
Theorem parameters_are_saved_before_the_connection (a : argv) (w : world) :
  missing_s3_params (resolved a w) = [] ->
  dotenv_exists w = false ->
  differs a w ->
  open_failure w = None ->
  (exists t',
      trace (main a w) =
        Print "Saving provided S3 parameters to .env file for future use."
        :: FileWrite ".env" (dotenv_content (resolved a w))
        :: Print ("Connecting to S3 bucket: " ++ fmt (dict_get (resolved a w) "BUCKET_NAME"))
        :: Resource (the_str (dict_get (resolved a w) "URL"))
                    (the_str (dict_get (resolved a w) "ACCESS_KEY"))
                    (the_str (dict_get (resolved a w) "SECRET_KEY"))
        :: t')
  /\ (forall e, resource_failure w = Some e ->
      main a w =
        mkOutcome (Exit 1)
          (set_files w (put_file (resolve w ".env") (dotenv_content (resolved a w)) (files w)))
          [Print "Saving provided S3 parameters to .env file for future use.";
           FileWrite ".env" (dotenv_content (resolved a w));
           Print ("Connecting to S3 bucket: " ++ fmt (dict_get (resolved a w) "BUCKET_NAME"));
           Resource (the_str (dict_get (resolved a w) "URL"))
                    (the_str (dict_get (resolved a w) "ACCESS_KEY"))
                    (the_str (dict_get (resolved a w) "SECRET_KEY"));
           Print ("Error during action '" ++ action_name (act (args_of a w))
                    ++ "': Error connecting to resource: " ++ e)]
      /\ get_file (resolve w ".env") (files (final (main a w)))
         = Some (dotenv_content (resolved a w))).
Proof.
  intros M D P O. apply cli_provided_iff in P.
  pose proof (configure_run a w) as C. rewrite M, D, P, O in C. cbn [negb andb] in C.
  pose proof (main_after_configure _ _ _ _ _ _ C) as E.
  split.
  - destruct (main_connects a w M) as [(e & O' & _)|(t' & T)]; [congruence|].
    exists t'. rewrite T, C. reflexivity.
  - intros e R.
    assert (B : connect_and_run (args_of a w) (resolved a w)
                  (set_files w (put_file (resolve w ".env")
                                  (dotenv_content (resolved a w)) (files w))) =
                mkOutcome (Raise ("Error connecting to resource: " ++ e))
                  (set_files w (put_file (resolve w ".env")
                                  (dotenv_content (resolved a w)) (files w)))
                  [Print ("Connecting to S3 bucket: "
                            ++ fmt (dict_get (resolved a w) "BUCKET_NAME"));
                   Resource (the_str (dict_get (resolved a w) "URL"))
                            (the_str (dict_get (resolved a w) "ACCESS_KEY"))
                            (the_str (dict_get (resolved a w) "SECRET_KEY"))]).
    { unfold connect_and_run, init, connect.
      unfold bind, try_except, print, boto3_resource, raise, ret.
      cbn [after app resource_failure set_files]. rewrite R. reflexivity. }
    rewrite B in E. cbn [res final trace app] in E. rewrite E.
    split; [reflexivity|]. cbn [final files set_files]. apply get_put_file.
Qed.

Lemma parameters_are_saved_before_the_connection_witness :
  status (cl (CmdLs None)) w_refused = 1
  /\ get_file ["home"; "u"; ".env"] (files (final (main (cl (CmdLs None)) w_refused)))
     = Some ("ACCESS_KEY=AK" ++ LF ++ "SECRET_KEY=SK" ++ LF
               ++ "BUCKET_NAME=bk" ++ LF ++ "URL=http://s3" ++ LF).
Proof.
  assert (P : differs (cl (CmdLs None)) w_refused)
    by (exists "URL"; split; [cbn; tauto | discriminate]).
  destruct (proj2 (parameters_are_saved_before_the_connection (cl (CmdLs None)) w_refused
                     eq_refl eq_refl P eq_refl) "Invalid endpoint: nowhere" eq_refl)
    as [R G].
  split; [unfold status; rewrite R; reflexivity | exact G].
Defined.

End WholeScript.

(** ** Deleting and uploading *)

Section Operations.
Import PyStr World World.Notations S3Tool Spec.

Lemma remove_key_absent {V} (k : string) (l : list (string * V)) :
  lookup k l = None -> remove_key k l = l.
Proof.
  induction l as [|[q u] r IH]; cbn [lookup remove_key]; [reflexivity|].
  destruct (String.eqb q k); [discriminate|]. intros H. now rewrite (IH H).
Qed.

Lemma upsert_same {V} (k : string) (v : V) (l : list (string * V)) :
  lookup k l = Some v -> upsert k v l = l.
Proof.
  induction l as [|[q u] r IH]; cbn [lookup upsert]; [discriminate|].
  destruct (String.eqb q k) eqn:E.
  - intros H. injection H as ->. apply String.eqb_eq in E. now subst q.
  - intros H. now rewrite (IH H).
Qed.

Lemma set_buckets_same (w : world) : set_buckets w (buckets w) = w.
Proof. now destruct w. Qed.

(** What [delete_file] does when the service answers and has the bucket:
    it reports the deletion whether or not the service made it. *)
Lemma delete_file_run (self : Bucket) (k : string) (w : world)
    (objs : list (string * string)) :
  request_failure w = None ->
  lookup (self_bucket_name self) (buckets w) = Some objs ->
  delete_file self k w =
  mkOutcome (Ok tt)
    (if refuses w (self_bucket_name self) k then w
     else set_buckets w (upsert (self_bucket_name self) (remove_key k objs) (buckets w)))
    [CreationDate (self_bucket_name self); DeleteObjects (self_bucket_name self) k;
     Print ("Deleted '" ++ k ++ "' from bucket '" ++ self_bucket_name self ++ "'")].
Proof.
  intros R L. unfold delete_file, try_except, bind. rewrite get_bucket_run, R, L.
  unfold s3_delete_objects, print. rewrite R, L.
  destruct (refuses w (self_bucket_name self) k); reflexivity.
Qed.

(** When the service answers and has the bucket, [delete_file] returns
    and prints that the key is deleted, whether or not the key is there and
    whether or not the service deleted it: the answer of [delete_objects] is
    not looked at.  The key is gone afterwards unless the service refused,
    and then the world is as it was; in both cases every other key keeps its
    object and the other buckets and the local files are untouched. *)
Theorem delete_removes_the_key_unless_refused (self : Bucket) (k : string) (w : world)
    (objs : list (string * string)) :
  request_failure w = None ->
  lookup (self_bucket_name self) (buckets w) = Some objs ->
  res (delete_file self k w) = Ok tt
  /\ trace (delete_file self k w) =
     [CreationDate (self_bucket_name self); DeleteObjects (self_bucket_name self) k;
      Print ("Deleted '" ++ k ++ "' from bucket '" ++ self_bucket_name self ++ "'")]
  /\ (exists objs',
        lookup (self_bucket_name self) (buckets (final (delete_file self k w))) = Some objs'
        /\ (forall k', k' <> k -> lookup k' objs' = lookup k' objs)
        /\ (refuses w (self_bucket_name self) k = false -> lookup k objs' = None)
        /\ (refuses w (self_bucket_name self) k = true ->
            lookup k objs' = lookup k objs /\ final (delete_file self k w) = w))
  /\ (forall b', b' <> self_bucket_name self ->
        lookup b' (buckets (final (delete_file self k w))) = lookup b' (buckets w))
  /\ dirs (final (delete_file self k w)) = dirs w
  /\ files (final (delete_file self k w)) = files w.
Proof.
  intros R L. rewrite (delete_file_run self k w objs R L). cbn [res final trace].
  split; [reflexivity|]. split; [reflexivity|].
  destruct (refuses w (self_bucket_name self) k); cbn [buckets dirs files set_buckets].
  - split; [|repeat split; reflexivity].
    exists objs. split; [exact L|]. split; [reflexivity|].
    split; [discriminate | intros _; split; reflexivity].
  - split; [|split; [intros b' N; now apply lookup_upsert_other | split; reflexivity]].
    exists (remove_key k objs). split; [apply lookup_upsert_same|].
    split; [intros k' N; now apply lookup_remove_other|].
    split; [intros _; apply lookup_remove_same | discriminate].
Qed.

Lemma delete_removes_the_key_unless_refused_witness :
  (exists objs',
      lookup "bk" (buckets (final (delete_file bk "dir/x" w0))) = Some objs'
      /\ lookup "dir/x" objs' = None
      /\ lookup "dirx" objs' = Some "Y")
  /\ delete_file bk "dir/x" w_locked =
     mkOutcome (Ok tt) w_locked
       [CreationDate "bk"; DeleteObjects "bk" "dir/x";
        Print "Deleted 'dir/x' from bucket 'bk'"].
Proof.
  destruct (delete_removes_the_key_unless_refused bk "dir/x" w0 _ eq_refl eq_refl)
    as (_ & _ & (objs' & L' & K' & A' & _) & _).
  destruct (delete_removes_the_key_unless_refused bk "dir/x" w_locked _ eq_refl eq_refl)
    as (R & T & (objs2 & _ & _ & _ & F) & _).
  split.
  { exists objs'. split; [exact L'|]. split; [exact (A' eq_refl)|].
    rewrite (K' "dirx"); [reflexivity | discriminate]. }
  destruct (F eq_refl) as [_ W].
  destruct (delete_file bk "dir/x" w_locked) as [r f t].
  cbn [res final trace] in R, T, W. now subst.
Defined.

(** Deleting is idempotent, and deleting a key that is not there is no
    error: a second deletion of the same key succeeds with the same calls
    and leaves the world as the first left it, and the deletion of an
    absent key leaves the world as it was. *)
Theorem delete_is_idempotent (self : Bucket) (k : string) (w : world)
    (objs : list (string * string)) :
  request_failure w = None ->
  lookup (self_bucket_name self) (buckets w) = Some objs ->
  delete_file self k (final (delete_file self k w)) =
    mkOutcome (Ok tt) (final (delete_file self k w)) (trace (delete_file self k w))
  /\ (lookup k objs = None ->
      delete_file self k w = mkOutcome (Ok tt) w (trace (delete_file self k w))).
Proof.
  intros R L. rewrite (delete_file_run self k w objs R L). cbn [final trace].
  destruct (refuses w (self_bucket_name self) k) eqn:F.
  - rewrite (delete_file_run self k w objs R L), F. split; reflexivity.
  - split.
    + rewrite (delete_file_run self k _ (remove_key k objs));
        [|exact R|cbn [buckets set_buckets]; apply lookup_upsert_same].
      change (refuses (set_buckets w ?x) ?n ?y) with (refuses w n y). rewrite F.
      cbn [buckets set_buckets]. now rewrite remove_key_idem, upsert_upsert.
    + intros A. rewrite (remove_key_absent k objs A), (upsert_same _ _ _ L).
      now rewrite set_buckets_same.
Qed.

Lemma delete_is_idempotent_witness :
  delete_file bk "nothing" w0 =
  mkOutcome (Ok tt) w0
    [CreationDate "bk"; DeleteObjects "bk" "nothing";
     Print "Deleted 'nothing' from bucket 'bk'"].
Proof.
  exact (proj2 (delete_is_idempotent bk "nothing" w0 _ eq_refl eq_refl) eq_refl).
Defined.

(** A deletion the service refuses is reported as a success: the script
    connects, asks for the deletion, prints that the key is deleted, twice,
    and ends normally, while the world, the object included, is what it
    was. *)
Theorem refused_deletion_is_reported_as_success
    (args : Namespace) (s3 : dict) (w : world) (k b : string)
    (objs : list (string * string)) :
  act args = Delete k ->
  dict_get s3 "BUCKET_NAME" = Some b ->
  resource_failure w = None ->
  request_failure w = None ->
  lookup b (buckets w) = Some objs ->
  refuses w b k = true ->
  connect_and_run args s3 w =
  mkOutcome (Ok tt) w
    [Print ("Connecting to S3 bucket: " ++ b);
     Resource (the_str (dict_get s3 "URL")) (the_str (dict_get s3 "ACCESS_KEY"))
              (the_str (dict_get s3 "SECRET_KEY"));
     Print ("Attempting to delete '" ++ k ++ "' from bucket '" ++ b ++ "'...");
     CreationDate b; DeleteObjects b k;
     Print ("Deleted '" ++ k ++ "' from bucket '" ++ b ++ "'");
     Print ("File '" ++ k ++ "' deleted successfully from bucket '" ++ b ++ "'.")].
Proof.
  intros A B C R L F.
  unfold connect_and_run, init, connect. rewrite A, B.
  unfold bind, try_except, print, boto3_resource, raise, ret.
  cbn [after app]. rewrite C. cbn [after app the_str fmt].
  rewrite (delete_file_run (mkBucket _ _ _ b) k w objs R L). cbn [self_bucket_name].
  rewrite F. reflexivity.
Qed.

Lemma refused_deletion_is_reported_as_success_witness :
  status (cl (CmdDelete "dir/x")) w_locked = 0
  /\ final (connect_and_run (args_of (cl (CmdDelete "dir/x")) w_locked)
                            (resolved (cl (CmdDelete "dir/x")) w_locked) w_locked)
     = w_locked.
Proof.
  split; [reflexivity|].
  now rewrite (refused_deletion_is_reported_as_success
                 (args_of (cl (CmdDelete "dir/x")) w_locked)
                 (resolved (cl (CmdDelete "dir/x")) w_locked) w_locked "dir/x" "bk" _
                 eq_refl eq_refl eq_refl eq_refl eq_refl eq_refl).
Defined.

(** What [upload_file] does when the service answers, has the bucket, and
    the local file is there. *)
Lemma upload_file_run (self : Bucket) (f o : string) (w : world)
    (objs : list (string * string)) (body : string) :
  request_failure w = None ->
  lookup (self_bucket_name self) (buckets w) = Some objs ->
  get_file (resolve w f) (files w) = Some body ->
  upload_file self f o w =
  mkOutcome (Ok tt)
    (set_buckets w
       (upsert (self_bucket_name self)
          (upsert (strftime_Ymd (today w) ++ "/" ++ hostname w ++ "/"
                     ++ (if negb (truthy o) then basename f else o)) body objs)
          (buckets w)))
    [CreationDate (self_bucket_name self);
     UploadFile (self_bucket_name self) f
       (strftime_Ymd (today w) ++ "/" ++ hostname w ++ "/"
          ++ (if negb (truthy o) then basename f else o))].
Proof.
  intros R L F. unfold upload_file, try_except, bind. rewrite get_bucket_run, R, L.
  cbn [after app]. rewrite build_object_name_run. cbn [after app].
  unfold s3_upload_file. rewrite F, R, L. reflexivity.
Qed.

(** An upload succeeds only when the service answers, has the bucket,
    and the local file can be read. *)
Lemma upload_file_inv (self : Bucket) (f o : string) (w : world) (u : unit) :
  res (upload_file self f o w) = Ok u ->
  request_failure w = None
  /\ exists objs body,
       lookup (self_bucket_name self) (buckets w) = Some objs
       /\ get_file (resolve w f) (files w) = Some body.
Proof.
  unfold upload_file, try_except, bind. rewrite get_bucket_run.
  destruct (request_failure w) eqn:R; [discriminate|].
  destruct (lookup (self_bucket_name self) (buckets w)) as [objs|] eqn:L; [|discriminate].
  cbn [after app]. rewrite build_object_name_run. cbn [after app].
  unfold s3_upload_file.
  destruct (get_file (resolve w f) (files w)) as [body|] eqn:F; [|discriminate].
  intros _. split; [reflexivity|]. now exists objs, body.
Qed.

(** An upload that succeeds stores the content of the local file under
    the key built from the date, the host name and the object name (the
    base name of the file by default), replacing the object already
    there if any; the other keys, the other buckets and the local files are
    untouched. *)
Theorem upload_stores_the_file (self : Bucket) (f o : string) (w : world) (u : unit) :
  res (upload_file self f o w) = Ok u ->
  exists objs body,
    lookup (self_bucket_name self) (buckets w) = Some objs
    /\ get_file (resolve w f) (files w) = Some body
    /\ (exists objs',
          lookup (self_bucket_name self) (buckets (final (upload_file self f o w))) = Some objs'
          /\ lookup (strftime_Ymd (today w) ++ "/" ++ hostname w ++ "/"
                       ++ (if negb (truthy o) then basename f else o)) objs' = Some body
          /\ (forall k', k' <> strftime_Ymd (today w) ++ "/" ++ hostname w ++ "/"
                                 ++ (if negb (truthy o) then basename f else o) ->
                lookup k' objs' = lookup k' objs))
    /\ (forall b', b' <> self_bucket_name self ->
          lookup b' (buckets (final (upload_file self f o w))) = lookup b' (buckets w))
    /\ dirs (final (upload_file self f o w)) = dirs w
    /\ files (final (upload_file self f o w)) = files w.
Proof.
  intros H. destruct (upload_file_inv self f o w u H) as (R & objs & body & L & F).
  exists objs, body. rewrite (upload_file_run self f o w objs body R L F).
  cbn [final buckets dirs files set_buckets].
  split; [exact L|]. split; [exact F|]. split.
  - eexists. split; [apply lookup_upsert_same|].
    split; [apply lookup_upsert_same|]. intros k' N. now apply lookup_upsert_other.
  - split; [intros b' N; now apply lookup_upsert_other|]. split; reflexivity.
Qed.

Lemma upload_stores_the_file_witness :
  exists objs',
    lookup "bk" (buckets (final (upload_file bk "r.txt" "k" w0))) = Some objs'
    /\ lookup "2026-11-04/host1/k" objs' = Some "hello".
Proof.
  destruct (upload_stores_the_file bk "r.txt" "k" w0 tt eq_refl)
    as (objs & body & _ & F & (objs' & L' & K' & _) & _).
  vm_compute in F. injection F as <-.
  exists objs'. split; [exact L' | exact K'].
Defined.

(** Uploading the same file again, the same day from the same host, is
    idempotent: the second upload succeeds with the same calls and leaves
    the world as the first left it, one object under the key. *)
Theorem upload_is_idempotent (self : Bucket) (f o : string) (w : world) (u : unit) :
  res (upload_file self f o w) = Ok u ->
  upload_file self f o (final (upload_file self f o w)) =
    mkOutcome (Ok tt) (final (upload_file self f o w)) (trace (upload_file self f o w)).
Proof.
  intros H. destruct (upload_file_inv self f o w u H) as (R & objs & body & L & F).
  rewrite (upload_file_run self f o w objs body R L F). cbn [final trace].
  erewrite upload_file_run;
    [|exact R|cbn [buckets set_buckets]; apply lookup_upsert_same|exact F].
  cbn [buckets set_buckets today hostname]. now rewrite !upsert_upsert.
Qed.

Lemma upload_is_idempotent_witness :
  buckets (final (upload_file bk "r.txt" "k" (final (upload_file bk "r.txt" "k" w0))))
  = buckets (final (upload_file bk "r.txt" "k" w0)).
Proof.
  now rewrite (upload_is_idempotent bk "r.txt" "k" w0 tt eq_refl).
Defined.

End Operations.

(** ** Downloading, continued *)

Section DownloadingMore.
Import PyStr World World.Notations S3Tool Spec.

(** Symbolic run of [download_file] down to its successful ends. *)
Ltac download_cases self w dest :=
  unfold download_file, get_bucket, creation_date, getcwd, isdir, makedirs,
    s3_download_file, print;
  unfold try_except, bind, raise, ret;
  destruct dest as [?d|]; cbn [truthy_opt the_str];
  (destruct (request_failure w) eqn:?R; cbn [after app res]; [discriminate|]);
  (destruct (lookup (self_bucket_name self) (buckets w)) as [?objs|] eqn:?L;
     cbn [after app res]; [|discriminate]);
  try match goal with
      | |- context [truthy ?d] => destruct (truthy d) eqn:?T; cbn [negb andb after app res]
      end;
  try match goal with
      | |- context [is_dir w (resolve w ?d)] => destruct (is_dir w (resolve w d)) eqn:?D
      end;
  cbn [after app res];
  run; (let X := fresh "X" in intros X; try discriminate X);
  cbn [set_files set_dirs files buckets cwd dirs request_failure negb andb] in *;
  try discriminate; try congruence;
  repeat match goal with
         | H1 : ?x = Some _, H2 : ?x = Some _ |- _ => rewrite H1 in H2; injection H2 as <-
         | H1 : ?x = None, H2 : ?x = Some _ |- _ => rewrite H1 in H2; discriminate H2
         end.

(** A download that succeeds has found the object and has written its
    body at the path it names in its call to the service. *)
Lemma download_file_inv
    (self : Bucket) (key : string) (dest : option string) (w : world) (u : unit) :
  res (download_file self key dest w) = Ok u ->
  exists objs body p,
    lookup (self_bucket_name self) (buckets w) = Some objs
    /\ lookup key objs = Some body
    /\ In (DownloadFile (self_bucket_name self) key p)
         (trace (download_file self key dest w))
    /\ get_file (resolve w p) (files (final (download_file self key dest w))) = Some body.
Proof.
  download_cases self w dest.
  all: do 3 eexists; split; [reflexivity|]; split; [eassumption|].
  all: rewrite ?resolve_set_dirs in *; split; [|apply get_put_file].
  all: cbn [In]; auto 8.
Qed.

(** A download that succeeds has made its four calls in order (look-up
    of the bucket, creation of the directory of the destination, download,
    message) and has written the body of the object at the destination:
    the base name of the key in the current directory when no destination
    is given, inside the destination when this is a directory, the
    destination itself otherwise.  The directory of the destination exists
    afterwards and the service is unchanged. *)
Theorem download_writes_the_object
    (self : Bucket) (key : string) (dest : option string) (w : world) (u : unit) :
  res (download_file self key dest w) = Ok u ->
  exists objs body p,
    lookup (self_bucket_name self) (buckets w) = Some objs
    /\ lookup key objs = Some body
    /\ p = (if truthy_opt dest
            then if is_dir w (resolve w (the_str dest))
                 then join (the_str dest) (basename key)
                 else the_str dest
            else join (cwd w) (basename key))
    /\ trace (download_file self key dest w) =
       [CreationDate (self_bucket_name self); Makedirs (dirname p);
        DownloadFile (self_bucket_name self) key p;
        Print ("Downloaded '" ++ key ++ "' to '" ++ p ++ "'")]
    /\ get_file (resolve w p) (files (final (download_file self key dest w))) = Some body
    /\ is_dir (final (download_file self key dest w)) (removelast (resolve w p)) = true
    /\ buckets (final (download_file self key dest w)) = buckets w.
Proof.
  download_cases self w dest.
  all: do 3 eexists; split; [reflexivity|]; split; [eassumption|];
    split; [reflexivity|]; split; [reflexivity|].
  all: rewrite ?resolve_set_dirs in *; split; [apply get_put_file|]; split; [|reflexivity].
  all: match goal with
       | H : _ || negb ?b = false |- _ =>
           apply orb_false_iff in H as [_ H]; apply negb_false_iff in H; exact H
       end.
Qed.

Lemma download_writes_the_object_witness :
  get_file ["home"; "u"; "out"; "b.txt"]
    (files (final (download_file bk "a/b.txt" (Some "out") w0))) = Some "B".
Proof.
  destruct (download_writes_the_object bk "a/b.txt" (Some "out") w0 tt eq_refl)
    as (objs & body & p & L & K & -> & _ & G & _).
  cbn in L. injection L as <-. cbn in K. injection K as <-. exact G.
Defined.

(** Uploading a file and downloading its key gives the content back: when
    both succeed, the file the download writes holds what the uploaded
    file held. *)
Theorem upload_then_download_round_trip
    (self : Bucket) (f o : string) (dest : option string) (w : world) (u u' : unit) :
  res (upload_file self f o w) = Ok u ->
  res (download_file self
         (strftime_Ymd (today w) ++ "/" ++ hostname w ++ "/"
            ++ (if negb (truthy o) then basename f else o))
         dest (final (upload_file self f o w))) = Ok u' ->
  exists p,
    In (DownloadFile (self_bucket_name self)
          (strftime_Ymd (today w) ++ "/" ++ hostname w ++ "/"
             ++ (if negb (truthy o) then basename f else o)) p)
       (trace (download_file self
                 (strftime_Ymd (today w) ++ "/" ++ hostname w ++ "/"
                    ++ (if negb (truthy o) then basename f else o))
                 dest (final (upload_file self f o w))))
    /\ get_file (resolve w p)
         (files (final (download_file self
                          (strftime_Ymd (today w) ++ "/" ++ hostname w ++ "/"
                             ++ (if negb (truthy o) then basename f else o))
                          dest (final (upload_file self f o w)))))
       = get_file (resolve w f) (files w).
Proof.
  intros H.
  destruct (upload_file_inv self f o w u H) as (R & objs & body & L & F).
  rewrite (upload_file_run self f o w objs body R L F). cbn [final].
  intros H'.
  destruct (download_file_inv _ _ _ _ _ H') as (objs' & body' & p & L' & K' & T & G).
  cbn [buckets set_buckets] in L'. rewrite lookup_upsert_same in L'. injection L' as <-.
  rewrite lookup_upsert_same in K'. injection K' as <-.
  exists p. split.
  - exact T.
  - rewrite F. exact G.
Qed.

Lemma upload_then_download_round_trip_witness :
  exists p,
    get_file (resolve w0 p)
      (files (final (download_file bk "2026-11-04/host1/r.txt" (Some "out")
                       (final (upload_file bk "r.txt" EmptyString w0)))))
    = Some "hello".
Proof.
  destruct (upload_then_download_round_trip bk "r.txt" EmptyString (Some "out") w0 tt tt
              eq_refl eq_refl) as (p & _ & G).
  exists p. exact G.
Defined.

Lemma existsb_add_dir_keep (q p : path) (acc : list path) :
  existsb (path_eqb q) acc = true -> existsb (path_eqb q) (add_dir acc p) = true.
Proof.
  intros H. unfold add_dir. destruct (existsb (path_eqb p) acc); [exact H|].
  rewrite existsb_app, H. reflexivity.
Qed.

Lemma existsb_add_dir_self (p : path) (acc : list path) :
  existsb (path_eqb p) (add_dir acc p) = true.
Proof.
  unfold add_dir. destruct (existsb (path_eqb p) acc) eqn:E; [exact E|].
  rewrite existsb_app. cbn [existsb]. rewrite path_eqb_refl. apply orb_true_iff. right.
  reflexivity.
Qed.

Lemma fold_add_dir_keep (q : path) (l acc : list path) :
  existsb (path_eqb q) acc = true -> existsb (path_eqb q) (fold_left add_dir l acc) = true.
Proof.
  revert acc. induction l as [|x r IH]; intros acc H; cbn [fold_left]; [exact H|].
  apply IH. now apply existsb_add_dir_keep.
Qed.

Lemma fold_add_dir_adds (q : path) (l acc : list path) :
  In q l -> existsb (path_eqb q) (fold_left add_dir l acc) = true.
Proof.
  revert acc. induction l as [|x r IH]; intros acc H; [destruct H|].
  cbn [fold_left]. destruct H as [->|H].
  - apply fold_add_dir_keep, existsb_add_dir_self.
  - now apply IH.
Qed.

Lemma inits_last (c : string) (r : path) : In (c :: r) (inits (c :: r)).
Proof.
  revert c. induction r as [|x r IH]; intros c; cbn [inits].
  - left. reflexivity.
  - right. apply in_map. apply IH.
Qed.

(** [os.makedirs], when it succeeds, leaves the directory in place, and
    touches neither the files nor the service. *)
Lemma makedirs_creates (n : string) (w : world) (u : unit) :
  res (makedirs n w) = Ok u ->
  is_dir (final (makedirs n w)) (resolve w n) = true
  /\ files (final (makedirs n w)) = files w
  /\ buckets (final (makedirs n w)) = buckets w
  /\ request_failure (final (makedirs n w)) = request_failure w
  /\ trace (makedirs n w) = [Makedirs n].
Proof.
  unfold makedirs.
  destruct (negb (truthy n)); [discriminate|].
  destruct (is_file w (resolve w n)); [discriminate|].
  destruct (existsb (is_file w) (inits (resolve w n))); [discriminate|].
  intros _. cbn [final trace files buckets request_failure set_dirs].
  repeat split.
  unfold is_dir. cbn [dirs]. destruct (resolve w n) as [|c r]; [reflexivity|].
  apply fold_add_dir_adds, inits_last.
Qed.

(** The directory of the destination is created before the object is
    looked up: when the key is not in the bucket, the download raises the
    error of the service, and the directories [os.makedirs] created
    stay behind; no file is written. *)
Theorem failed_download_leaves_the_directory
    (self : Bucket) (key d : string) (w : world) (objs : list (string * string)) :
  request_failure w = None ->
  lookup (self_bucket_name self) (buckets w) = Some objs ->
  lookup key objs = None ->
  truthy d = true ->
  is_dir w (resolve w d) = false ->
  res (makedirs (dirname d) w) = Ok tt ->
  res (download_file self key (Some d) w) =
    Raise ("Error downloading file '" ++ key ++ "' from bucket '" ++ self_bucket_name self
             ++ "': An error occurred (404) when calling the HeadObject operation: Not Found")
  /\ final (download_file self key (Some d) w) = final (makedirs (dirname d) w)
  /\ is_dir (final (download_file self key (Some d) w)) (resolve w (dirname d)) = true
  /\ files (final (download_file self key (Some d) w)) = files w
  /\ trace (download_file self key (Some d) w) =
     [CreationDate (self_bucket_name self); Makedirs (dirname d);
      DownloadFile (self_bucket_name self) key d].
Proof.
  intros R L K T D M.
  destruct (makedirs_creates _ _ _ M) as (MD & MF & MB & MR & MT).
  unfold download_file, try_except, bind. rewrite get_bucket_run, R, L.
  cbn [after app truthy_opt the_str]. unfold isdir, ret. rewrite T.
  cbn [negb andb after app]. rewrite D. cbn [after app].
  destruct (makedirs (dirname d) w) as [r w1 t]. cbn [res final trace] in *. subst r t.
  cbn [after app]. unfold s3_download_file. rewrite MR, R, MB, L, K.
  cbn [after app res final trace]. repeat split; assumption.
Qed.

Lemma failed_download_leaves_the_directory_witness :
  dirs (final (download_file bk "missing" (Some "new/sub/b.bin") w0)) =
    [["home"]; ["home"; "u"]; ["home"; "u"; "out"];
     ["home"; "u"; "new"]; ["home"; "u"; "new"; "sub"]]
  /\ files (final (download_file bk "missing" (Some "new/sub/b.bin") w0)) = files w0.
Proof.
  destruct (failed_download_leaves_the_directory bk "missing" "new/sub/b.bin" w0 _
              eq_refl eq_refl eq_refl eq_refl eq_refl eq_refl) as (_ & F & _ & G & _).
  split; [rewrite F; reflexivity | exact G].
Defined.

(** The order of the calls of a download, and the rule of the
    destination, on an example of each kind. *)
Lemma download_file_calls_witness :
  trace (download_file bk "a/b.txt" (Some "out") w0) =
    [CreationDate "bk"; Makedirs "out"; DownloadFile "bk" "a/b.txt" "out/b.txt";
     Print "Downloaded 'a/b.txt' to 'out/b.txt'"].
Proof.
  destruct (download_file_calls bk "a/b.txt" "out" w0 eq_refl) as [H|[H|[H|H]]];
    try discriminate H.
  exact H.
Defined.

Lemma download_to_bare_name_fails_witness :
  final (download_file bk "a/b.txt" (Some "out.txt") w0) = w0.
Proof.
  exact (proj2 (proj2 (download_to_bare_name_fails bk "a/b.txt" "out.txt" w0
                         eq_refl eq_refl eq_refl))).
Defined.

End DownloadingMore.

(** ** What the actions leave untouched *)

Section Frames.
Import PyStr World World.Notations S3Tool Spec.
Context {X : Type} (f : world -> X).

Lemma keeps_still {A} (m : M A) : (forall w, final (m w) = w) -> keeps f m.
Proof. intros H w. now rewrite H. Qed.

Lemma keeps_bind {A B} (m : M A) (k : A -> M B) :
  keeps f m -> (forall a, keeps f (k a)) -> keeps f (bind m k).
Proof.
  intros Hm Hk w. unfold bind. specialize (Hm w).
  destruct (m w) as [[a|e|c] w' t]; cbn [final] in *; try exact Hm.
  specialize (Hk a w'). destruct (k a w') as [r2 w2 t2]. cbn [after final] in *.
  congruence.
Qed.

Lemma keeps_try {A} (m : M A) (h : string -> M A) :
  keeps f m -> (forall e, keeps f (h e)) -> keeps f (try_except m h).
Proof.
  intros Hm Hh w. unfold try_except. specialize (Hm w).
  destruct (m w) as [[a|e|c] w' t]; cbn [final] in *; try exact Hm.
  specialize (Hh e w'). destruct (h e w') as [r2 w2 t2]. cbn [after final] in *.
  congruence.
Qed.

Lemma keeps_ret {A} (a : A) : keeps f (ret a).
Proof. now apply keeps_still. Qed.

Lemma keeps_raise {A} (e : string) : keeps f (@raise A e).
Proof. now apply keeps_still. Qed.

Lemma keeps_sys_exit {A} (c : nat) : keeps f (@sys_exit A c).
Proof. now apply keeps_still. Qed.

Lemma keeps_print (l : string) : keeps f (print l).
Proof. now apply keeps_still. Qed.

Lemma keeps_isdir (n : string) : keeps f (isdir n).
Proof. now apply keeps_still. Qed.

Lemma keeps_getcwd : keeps f getcwd.
Proof. now apply keeps_still. Qed.

Lemma keeps_boto3_resource (u k s : string) : keeps f (boto3_resource u k s).
Proof. now apply keeps_still. Qed.

Lemma keeps_creation_date (n : string) : keeps f (creation_date n).
Proof. now apply keeps_still. Qed.

Lemma keeps_object_keys (n : string) (p : option string) : keeps f (object_keys n p).
Proof. now apply keeps_still. Qed.

Lemma keeps_build_object_name (self : Bucket) (p o : string) :
  keeps f (build_object_name self p o).
Proof. now apply keeps_still. Qed.

End Frames.

Create HintDb keeps.
#[local] Hint Resolve keeps_ret keeps_raise keeps_sys_exit keeps_print keeps_isdir
  keeps_getcwd keeps_boto3_resource keeps_creation_date keeps_object_keys
  keeps_build_object_name : keeps.

Ltac keeps_step :=
  lazymatch goal with
  | |- Spec.keeps _ (World.bind _ _) => apply keeps_bind; [|intro]
  | |- Spec.keeps _ (World.try_except _ _) => apply keeps_try; [|intro]
  | |- Spec.keeps _ (match ?x with _ => _ end) => destruct x
  | |- Spec.keeps _ _ => solve [auto with keeps]
  end.

Section Untouched.
Import PyStr World World.Notations S3Tool Spec.

Lemma keeps_get_bucket {X} (f : world -> X) (self : Bucket) (n : string) :
  keeps f (get_bucket self n).
Proof. unfold get_bucket. repeat keeps_step. Qed.

Lemma keeps_init {X} (f : world -> X) (u k s n : string) : keeps f (init u k s n).
Proof. unfold init, connect. repeat keeps_step. Qed.

Lemma keeps_print_all {X} (f : world -> X) (l : list string) :
  keeps f (fold_right (fun x k => print ("- " ++ x) ;;; k) (ret tt) l).
Proof.
  induction l as [|x r IH]; cbn [fold_right]; [apply keeps_ret|].
  apply keeps_bind; [apply keeps_print | intros _; exact IH].
Qed.

(** A listing changes nothing at all. *)
Lemma keeps_ls {X} (f : world -> X) (self : Bucket) (d : string) : keeps f (ls self d).
Proof. pose proof (keeps_get_bucket f). unfold ls. repeat keeps_step. Qed.

Lemma makedirs_keeps_buckets (n : string) : keeps buckets (makedirs n).
Proof. intros w. unfold makedirs. run; reflexivity. Qed.

Lemma s3_download_keeps_buckets (n k d : string) : keeps buckets (s3_download_file n k d).
Proof. intros w. unfold s3_download_file. run; reflexivity. Qed.

(** A download never changes the service. *)
Lemma download_keeps_buckets (self : Bucket) (k : string) (d : option string) :
  keeps buckets (download_file self k d).
Proof.
  pose proof (keeps_get_bucket buckets). pose proof makedirs_keeps_buckets.
  pose proof s3_download_keeps_buckets.
  unfold download_file. repeat keeps_step.
Qed.

Lemma s3_upload_keeps_local (n p k : string) :
  keeps files (s3_upload_file n p k) /\ keeps dirs (s3_upload_file n p k).
Proof. split; intros w; unfold s3_upload_file; run; reflexivity. Qed.

Lemma s3_delete_keeps_local (n k : string) :
  keeps files (s3_delete_objects n k) /\ keeps dirs (s3_delete_objects n k).
Proof. split; intros w; unfold s3_delete_objects; run; reflexivity. Qed.

(** An upload and a deletion never change the local file system. *)
Lemma upload_keeps_local (self : Bucket) (p o : string) :
  keeps files (upload_file self p o) /\ keeps dirs (upload_file self p o).
Proof.
  pose proof (keeps_get_bucket files). pose proof (keeps_get_bucket dirs).
  split; unfold upload_file.
  - pose proof (fun n p k => proj1 (s3_upload_keeps_local n p k)). repeat keeps_step.
  - pose proof (fun n p k => proj2 (s3_upload_keeps_local n p k)). repeat keeps_step.
Qed.

Lemma delete_keeps_local (self : Bucket) (k : string) :
  keeps files (delete_file self k) /\ keeps dirs (delete_file self k).
Proof.
  pose proof (keeps_get_bucket files). pose proof (keeps_get_bucket dirs).
  split; unfold delete_file.
  - pose proof (fun n k => proj1 (s3_delete_keeps_local n k)). repeat keeps_step.
  - pose proof (fun n k => proj2 (s3_delete_keeps_local n k)). repeat keeps_step.
Qed.

(** The body of the [try], action by action. *)
Lemma body_keeps_buckets (args : Namespace) (s3 : dict) :
  match act args with
  | Ls _ | Download _ _ => keeps buckets (connect_and_run args s3)
  | _ => True
  end.
Proof.
  pose proof (keeps_init buckets). pose proof (keeps_ls buckets).
  pose proof download_keeps_buckets.
  unfold connect_and_run. destruct (act args); try exact I; repeat keeps_step.
  apply keeps_print_all.
Qed.

Lemma body_keeps_local (args : Namespace) (s3 : dict) :
  match act args with
  | Download _ _ => True
  | _ => keeps files (connect_and_run args s3) /\ keeps dirs (connect_and_run args s3)
  end.
Proof.
  pose proof (keeps_init files). pose proof (keeps_init dirs).
  pose proof (keeps_ls files). pose proof (keeps_ls dirs).
  pose proof (fun s p o => proj1 (upload_keeps_local s p o)).
  pose proof (fun s p o => proj2 (upload_keeps_local s p o)).
  pose proof (fun s k => proj1 (delete_keeps_local s k)).
  pose proof (fun s k => proj2 (delete_keeps_local s k)).
  unfold connect_and_run. destruct (act args); try exact I; split; repeat keeps_step;
    apply keeps_print_all.
Qed.

(** Where the script ends, in terms of its two parts. *)
Lemma main_final (a : argv) (w : world) :
  final (main a w) = final (configure a w)
  \/ (res (configure a w) = Ok (args_of a w, resolved a w)
      /\ final (main a w) =
         final (connect_and_run (args_of a w) (resolved a w) (final (configure a w)))).
Proof.
  pose proof (configure_run a w) as C.
  destruct (missing_s3_params (resolved a w)) eqn:M.
  - assert (R : forall w1 t,
               configure a w = mkOutcome (Ok (args_of a w, resolved a w)) w1 t ->
               res (configure a w) = Ok (args_of a w, resolved a w)
               /\ final (main a w) =
                  final (connect_and_run (args_of a w) (resolved a w) (final (configure a w)))).
    { intros w1 t C1. rewrite (main_after_configure _ _ _ _ _ _ C1), C1. cbn [res final].
      split; [reflexivity|].
      match goal with
      | |- context [res ?o] => destruct (res o)
      end; reflexivity. }
    match type of C with
    | _ = (if ?b then _ else _) => destruct b
    end; [destruct (open_failure w)|].
    + left. now rewrite (main_configure_raises _ _ _ _ _ C), C.
    + right. exact (R _ _ C).
    + right. exact (R _ _ C).
  - left. rewrite main_missing_run, C; [reflexivity|]. rewrite M. discriminate.
Qed.

Lemma configure_keeps (a : argv) :
  keeps buckets (configure a) /\ keeps dirs (configure a).
Proof.
  split; intros w; rewrite configure_run;
    destruct (missing_s3_params (resolved a w)); try reflexivity;
    match goal with
    | |- context [if ?b then _ else _] => destruct b
    end; try destruct (open_failure w); reflexivity.
Qed.

(** The [ls] and [download] commands never change the service: whatever
    happens, the buckets and their objects are after the run what they
    were before. *)
Theorem ls_and_download_leave_the_service (a : argv) (w : world) :
  match opt_command a with
  | CmdLs _ | CmdDownload _ _ => buckets (final (main a w)) = buckets w
  | _ => True
  end.
Proof.
  pose proof (body_keeps_buckets (args_of a w) (resolved a w)) as B.
  pose proof (proj1 (configure_keeps a) w) as C.
  assert (A : act (args_of a w) =
              match opt_command a with
              | CmdUpload p o => Upload p o
              | CmdLs d => Ls (the_str (with_default d (Some EmptyString)))
              | CmdDownload k l => Download k l
              | CmdDelete k => Delete k
              end) by reflexivity.
  destruct (opt_command a); try exact I; rewrite A in B;
    (destruct (main_final a w) as [E|[_ E]]; rewrite E; [exact C|]);
    now rewrite B.
Qed.

(** The [upload], [ls] and [delete] commands never change the local file
    system beyond the configuration file the first part of the script may
    write: no directory is created, and the files are those the first part
    left. *)
Theorem upload_ls_delete_leave_the_local_files (a : argv) (w : world) :
  match opt_command a with
  | CmdDownload _ _ => True
  | _ => dirs (final (main a w)) = dirs w
         /\ files (final (main a w)) = files (final (configure a w))
  end.
Proof.
  pose proof (body_keeps_local (args_of a w) (resolved a w)) as B.
  pose proof (proj2 (configure_keeps a) w) as C.
  assert (A : act (args_of a w) =
              match opt_command a with
              | CmdUpload p o => Upload p o
              | CmdLs d => Ls (the_str (with_default d (Some EmptyString)))
              | CmdDownload k l => Download k l
              | CmdDelete k => Delete k
              end) by reflexivity.
  destruct (opt_command a); try exact I; rewrite A in B;
    (destruct (main_final a w) as [E|[_ E]]; rewrite E; [split; [exact C | reflexivity]|]);
    destruct B as [BF BD]; now rewrite BF, BD.
Qed.

End Untouched.
